(** * Generated service bindings of the node SDK: LanguageTranslatorV2 and DiscoveryV1

    A shallow embedding of [src/language-translator/v2.ts] and
    [src/discovery/v1.ts].  Every method of the two classes is an instance
    of one generated template:

    - validate the required parameters ([helper.getMissingParams]) and, when
      something is missing and a callback was given, return [callback(err)];
    - build the object literals [formData], [body], [query], [path] from
      [params];
    - build [parameters = { options, defaultOptions }], where
      [defaultOptions] is [extend(true, this._options, { headers })];
    - return [requestFactory(parameters, callback)].

    The per-method data (required parameters, URL template, HTTP method,
    literals, headers) is kept in a table, one row per method, and the
    template is the interpreter [invoke]. *)

From stdpp Require Import gmap strings list fin_maps.
From Stdlib Require Import ZArith Ascii String.

Local Open Scope string_scope.

#[local] Set Warnings "-register-all".

(** ** JavaScript values *)

(** The values that flow through the bindings.  Numbers are the integral
    ones; [VFun f fname] is the function object number [f], whose own
    property [name] is [fname]; [VObj] is an object given by its own
    properties in insertion order.  Objects that the methods only read
    (the [params] bag) or build and hand over (the literals) are values;
    the one object the methods write to, [this._options], has an identity
    and lives in the store below. *)
Inductive value : Type :=
  | VUndefined
  | VNull
  | VBool (b : bool)
  | VNum (n : Z)
  | VStr (s : string)
  | VFun (f : nat) (fname : string)
  | VArr (elts : list value)
  | VObj (fields : list (string * value)).

Inductive error : Type :=
  | TypeError
  | Error (message : string).

(** Normal or abrupt completion of an expression or statement. *)
Inductive completion (A : Type) : Type :=
  | Normal (a : A)
  | Throw (e : error).

Arguments Normal {A} a.
Arguments Throw {A} e.

Definition bind {A B : Type} (c : completion A) (k : A -> completion B) : completion B :=
  match c with
  | Normal a => k a
  | Throw e => Throw e
  end.

Notation "x <- c ;; k" := (bind c (fun x => k))
  (at level 100, c at next level, right associativity).

(** [typeof v] *)
Definition typeof (v : value) : string :=
  match v with
  | VUndefined => "undefined"
  | VNull => "object"
  | VBool _ => "boolean"
  | VNum _ => "number"
  | VStr _ => "string"
  | VFun _ _ => "function"
  | VArr _ => "object"
  | VObj _ => "object"
  end.

(** ToBoolean: what [if (v)], [!v], [v && w] and [v || w] test. *)
Definition truthy (v : value) : bool :=
  match v with
  | VUndefined | VNull => false
  | VBool b => b
  | VNum n => negb (Z.eqb n 0)
  | VStr s => negb (String.eqb s "")
  | VFun _ _ | VArr _ | VObj _ => true
  end.

(** [a || b] *)
Definition or_else (a b : value) : value := if truthy a then a else b.

(** [v == null]: [v] is [null] or [undefined]. *)
Definition nullish (v : value) : bool :=
  match v with
  | VUndefined | VNull => true
  | _ => false
  end.

(** Own property [k] of an object, [undefined] when absent. *)
Fixpoint assoc (k : string) (fields : list (string * value)) : value :=
  match fields with
  | [] => VUndefined
  | (k', v) :: rest => if String.eqb k k' then v else assoc k rest
  end.

(** [o[k] = v] on the own properties of [o]: an existing key keeps its
    place, a new key goes last. *)
Fixpoint assoc_set (k : string) (v : value) (fields : list (string * value))
  : list (string * value) :=
  match fields with
  | [] => [(k, v)]
  | (k', v') :: rest =>
      if String.eqb k k' then (k', v) :: rest else (k', v') :: assoc_set k v rest
  end.

(** [v.k] for a [v] that is neither [null] nor [undefined].  Properties
    inherited from a prototype, and the [length] of strings and arrays,
    are not represented: they read as [undefined]. *)
Definition prop (v : value) (k : string) : value :=
  match v with
  | VObj fields => assoc k fields
  | VFun _ fname => if String.eqb k "name" then VStr fname else VUndefined
  | _ => VUndefined
  end.

(** [v.k]: a TypeError on [null] and [undefined]. *)
Definition get (v : value) (k : string) : completion value :=
  if nullish v then Throw TypeError else Normal (prop v k).

(** [o.k = v] in strict mode (the classes are compiled as modules):
    a TypeError on [null], [undefined] and primitives.  A property added to
    a function or an array is not represented. *)
Definition set (o : value) (k : string) (v : value) : completion value :=
  match o with
  | VObj fields => Normal (VObj (assoc_set k v fields))
  | VFun _ _ | VArr _ => Normal o
  | _ => Throw TypeError
  end.

Definition own_keys (v : value) : list string :=
  match v with
  | VObj fields => map fst fields
  | _ => []
  end.

(** ** The store: objects with an identity *)

Definition loc := nat.

(** Objects that are shared and written to.  A nested object (such as
    [_options.headers]) is owned by the object that holds it. *)
Abbreviation store := (gmap nat (list (string * value))).

Definition obj_at (h : store) (l : loc) : list (string * value) :=
  default [] (h !! l).

(** [this] of a service client: [_options] is "set by BaseService"
    (v2.ts:28, v1.ts:28) and is a reference to an object of the store. *)
Record service : Type := { _options : loc }.

(** ** [extend], the npm package imported at v2.ts:18 and v1.ts:18 *)

(** Every call in the two files is
    [extend(true, this._options, { headers: { ... } })]: a deep merge of an
    object literal of strings into a target.  [literal] is the shape of
    those sources. *)
Inductive literal : Type :=
  | LStr (s : string)
  | LObj (fields : list (string * literal)).

(** What a deep [extend] stores under a name whose current value in the
    target is [src] and whose value in the source is [copy]: a plain object
    is merged into [src] when that is a plain object and into [{}]
    otherwise; anything else that is not [undefined] replaces [src]. *)
Fixpoint extend_value (src : value) (copy : literal) : value :=
  match copy with
  | LStr s => VStr s
  | LObj fields =>
      let clone := match src with VObj own => own | _ => [] end in
      VObj ((fix merge (target : list (string * value))
                       (options : list (string * literal)) {struct options} :=
               match options with
               | [] => target
               | (name, copy') :: rest =>
                   merge (assoc_set name (extend_value (assoc name target) copy') target) rest
               end) clone fields)
  end.

(** The loop [for (name in options)] of [extend] with [deep = true]. *)
Fixpoint extend_deep (target : list (string * value)) (options : list (string * literal))
  : list (string * value) :=
  match options with
  | [] => target
  | (name, copy) :: rest =>
      extend_deep (assoc_set name (extend_value (assoc name target) copy) target) rest
  end.

(** [extend(true, target, options)]: the target object itself receives the
    properties and is what is returned ("Return the modified object"). *)
Definition extend (h : store) (target : loc) (options : list (string * literal))
  : store * loc :=
  (<[target := extend_deep (obj_at h target) options]> h, target).

(** ** [lib/helper] *)

(** Modelled from the spec: [helper.getMissingParams] of [lib/helper], which
    is not under src/.  Spec 4.1 gives the contract "validateRequired(params,
    required) -> list of names currently absent from params or explicitly
    null/undefined" and records what the source does instead: "The source's
    shallow existence check risks flagging legitimate falsy values".  The
    model is the check of the source, [!params[name]]: a name is reported
    when its value is falsy, so an absent, [null] or [undefined] value is
    reported and so is [''], [0] or [false]. *)
Definition validateRequired (params : value) (required : list string) : list string :=
  List.filter (fun name => negb (truthy (prop params name))) required.

(** Modelled from the spec: the MissingParamsError of spec section 3,
    "{ kind: missing_required_parameters, missing: ordered list of field
    names }". *)
Definition MissingParamsError (missing : list string) : value :=
  VObj [("kind", VStr "missing_required_parameters");
        ("missing", VArr (map VStr missing))].

(** Modelled from the spec: the value the methods test with
    [if (missingParams && callback)] and pass to the callback.  Nothing
    missing is a falsy result ([null]); otherwise it is the error. *)
Definition getMissingParams (params : value) (required : list string) : value :=
  match validateRequired params required with
  | [] => VNull
  | missing => MissingParamsError missing
  end.

(** ** The table of endpoints *)

(** [contentType] of a file part: a string literal or [params.<name>]. *)
Inductive contentType_source : Type :=
  | Fixed (s : string)
  | FromParam (p : string).

(** [<part>: helper.buildRequestFileObject({data: params.<data>, contentType: ...})] *)
Record file_part : Type :=
  { part : string; data : string; contentType : contentType_source }.

(** One generated method.  A literal [{ k1: params.p1, ... }] is the list
    of its [(k, p)]; [None] when the method has no such literal. *)
Record endpoint : Type :=
  { requiredParams : option (list string);
      (** [Some r]: [const requiredParams = r] with the validation guard;
          [None]: all parameters optional, with the detection of a callback
          passed as first argument *)
    formData : option (list file_part);
    formData_optional : list string;
      (** [if (params.k) formData.k = ...] *)
    body : option (list (string * string));
    qs : option (list (string * string));   (** [const query], sent as [qs] *)
    path : option (list (string * string));
    url : string;
    method : string;
    json : bool;                            (** [json: true] *)
    headers : list (string * string) }.

Module LanguageTranslatorV2.

Inductive operation : Type :=
  | translate
  | identify
  | listIdentifiableLanguages
  | createModel
  | deleteModel
  | getModel
  | listModels.

Definition endpoint_of (m : operation) : endpoint :=
  match m with
  | translate =>
      {| requiredParams := Some ["text"];
         formData := None;
         formData_optional := [];
         body := Some [("text", "text"); ("model_id", "model_id"); ("source", "source"); ("target", "target")];
         qs := None;
         path := None;
         url := "/v2/translate";
         method := "POST";
         json := true;
         headers := [("accept", "application/json"); ("content-type", "application/json")] |}
  | identify =>
      {| requiredParams := Some ["text"];
         formData := None;
         formData_optional := [];
         body := Some [("text", "text")];
         qs := None;
         path := None;
         url := "/v2/identify";
         method := "POST";
         json := true;
         headers := [("accept", "application/json"); ("content-type", "text/plain")] |}
  | listIdentifiableLanguages =>
      {| requiredParams := None;
         formData := None;
         formData_optional := [];
         body := None;
         qs := None;
         path := None;
         url := "/v2/identifiable_languages";
         method := "GET";
         json := false;
         headers := [("accept", "application/json")] |}
  | createModel =>
      {| requiredParams := Some ["base_model_id"];
         formData := Some [{| part := "forced_glossary"; data := "forced_glossary"; contentType := Fixed "application/octet-stream" |};
                      {| part := "parallel_corpus"; data := "parallel_corpus"; contentType := Fixed "application/octet-stream" |};
                      {| part := "monolingual_corpus"; data := "monolingual_corpus"; contentType := Fixed "text/plain" |}];
         formData_optional := [];
         body := None;
         qs := Some [("base_model_id", "base_model_id"); ("name", "name")];
         path := None;
         url := "/v2/models";
         method := "POST";
         json := false;
         headers := [("accept", "application/json"); ("content-type", "multipart/form-data")] |}
  | deleteModel =>
      {| requiredParams := Some ["model_id"];
         formData := None;
         formData_optional := [];
         body := None;
         qs := None;
         path := Some [("model_id", "model_id")];
         url := "/v2/models/{model_id}";
         method := "DELETE";
         json := false;
         headers := [("accept", "application/json")] |}
  | getModel =>
      {| requiredParams := Some ["model_id"];
         formData := None;
         formData_optional := [];
         body := None;
         qs := None;
         path := Some [("model_id", "model_id")];
         url := "/v2/models/{model_id}";
         method := "GET";
         json := false;
         headers := [("accept", "application/json")] |}
  | listModels =>
      {| requiredParams := None;
         formData := None;
         formData_optional := [];
         body := None;
         qs := Some [("source", "source"); ("target", "target"); ("default", "default_models")];
         path := None;
         url := "/v2/models";
         method := "GET";
         json := false;
         headers := [("accept", "application/json"); ("content-type", "application/x-www-form-urlencoded")] |}
  end.

End LanguageTranslatorV2.

Module DiscoveryV1.

Inductive operation : Type :=
  | createEnvironment
  | deleteEnvironment
  | getEnvironment
  | listEnvironments
  | listFields
  | updateEnvironment
  | createConfiguration
  | deleteConfiguration
  | getConfiguration
  | listConfigurations
  | updateConfiguration
  | testConfigurationInEnvironment
  | createCollection
  | deleteCollection
  | getCollection
  | listCollectionFields
  | listCollections
  | updateCollection
  | addDocument
  | deleteDocument
  | getDocumentStatus
  | updateDocument
  | federatedQuery
  | federatedQueryNotices
  | query
  | queryNotices
  | addTrainingData
  | createTrainingExample
  | deleteAllTrainingData
  | deleteTrainingData
  | deleteTrainingExample
  | getTrainingData
  | getTrainingExample
  | listTrainingData
  | updateTrainingExample.

Definition endpoint_of (m : operation) : endpoint :=
  match m with
  | createEnvironment =>
      {| requiredParams := Some ["name"];
         formData := None;
         formData_optional := [];
         body := Some [("name", "name"); ("description", "description"); ("size", "size")];
         qs := None;
         path := None;
         url := "/v1/environments";
         method := "POST";
         json := true;
         headers := [("accept", "application/json"); ("content-type", "application/json")] |}
  | deleteEnvironment =>
      {| requiredParams := Some ["environment_id"];
         formData := None;
         formData_optional := [];
         body := None;
         qs := None;
         path := Some [("environment_id", "environment_id")];
         url := "/v1/environments/{environment_id}";
         method := "DELETE";
         json := false;
         headers := [("accept", "application/json"); ("content-type", "application/json")] |}
  | getEnvironment =>
      {| requiredParams := Some ["environment_id"];
         formData := None;
         formData_optional := [];
         body := None;
         qs := None;
         path := Some [("environment_id", "environment_id")];
         url := "/v1/environments/{environment_id}";
         method := "GET";
         json := false;
         headers := [("accept", "application/json"); ("content-type", "application/json")] |}
  | listEnvironments =>
      {| requiredParams := None;
         formData := None;
         formData_optional := [];
         body := None;
         qs := Some [("name", "name")];
         path := None;
         url := "/v1/environments";
         method := "GET";
         json := false;
         headers := [("accept", "application/json"); ("content-type", "application/json")] |}
  | listFields =>
      {| requiredParams := Some ["environment_id"; "collection_ids"];
         formData := None;
         formData_optional := [];
         body := None;
         qs := Some [("collection_ids", "collection_ids")];
         path := Some [("environment_id", "environment_id")];
         url := "/v1/environments/{environment_id}/fields";
         method := "GET";
         json := false;
         headers := [("accept", "application/json"); ("content-type", "application/json")] |}
  | updateEnvironment =>
      {| requiredParams := Some ["environment_id"];
         formData := None;
         formData_optional := [];
         body := Some [("name", "name"); ("description", "description")];
         qs := None;
         path := Some [("environment_id", "environment_id")];
         url := "/v1/environments/{environment_id}";
         method := "PUT";
         json := true;
         headers := [("accept", "application/json"); ("content-type", "application/json")] |}
  | createConfiguration =>
      {| requiredParams := Some ["environment_id"; "name"];
         formData := None;
         formData_optional := [];
         body := Some [("name", "name"); ("description", "description"); ("conversions", "conversions"); ("enrichments", "enrichments"); ("normalizations", "normalizations")];
         qs := None;
         path := Some [("environment_id", "environment_id")];
         url := "/v1/environments/{environment_id}/configurations";
         method := "POST";
         json := true;
         headers := [("accept", "application/json"); ("content-type", "application/json")] |}
  | deleteConfiguration =>
      {| requiredParams := Some ["environment_id"; "configuration_id"];
         formData := None;
         formData_optional := [];
         body := None;
         qs := None;
         path := Some [("environment_id", "environment_id"); ("configuration_id", "configuration_id")];
         url := "/v1/environments/{environment_id}/configurations/{configuration_id}";
         method := "DELETE";
         json := false;
         headers := [("accept", "application/json"); ("content-type", "application/json")] |}
  | getConfiguration =>
      {| requiredParams := Some ["environment_id"; "configuration_id"];
         formData := None;
         formData_optional := [];
         body := None;
         qs := None;
         path := Some [("environment_id", "environment_id"); ("configuration_id", "configuration_id")];
         url := "/v1/environments/{environment_id}/configurations/{configuration_id}";
         method := "GET";
         json := false;
         headers := [("accept", "application/json"); ("content-type", "application/json")] |}
  | listConfigurations =>
      {| requiredParams := Some ["environment_id"];
         formData := None;
         formData_optional := [];
         body := None;
         qs := Some [("name", "name")];
         path := Some [("environment_id", "environment_id")];
         url := "/v1/environments/{environment_id}/configurations";
         method := "GET";
         json := false;
         headers := [("accept", "application/json"); ("content-type", "application/json")] |}
  | updateConfiguration =>
      {| requiredParams := Some ["environment_id"; "configuration_id"; "name"];
         formData := None;
         formData_optional := [];
         body := Some [("name", "name"); ("description", "description"); ("conversions", "conversions"); ("enrichments", "enrichments"); ("normalizations", "normalizations")];
         qs := None;
         path := Some [("environment_id", "environment_id"); ("configuration_id", "configuration_id")];
         url := "/v1/environments/{environment_id}/configurations/{configuration_id}";
         method := "PUT";
         json := true;
         headers := [("accept", "application/json"); ("content-type", "application/json")] |}
  | testConfigurationInEnvironment =>
      {| requiredParams := Some ["environment_id"];
         formData := Some [{| part := "file"; data := "file"; contentType := FromParam "file_content_type" |}];
         formData_optional := ["metadata"; "configuration"];
         body := None;
         qs := Some [("step", "step"); ("configuration_id", "configuration_id")];
         path := Some [("environment_id", "environment_id")];
         url := "/v1/environments/{environment_id}/preview";
         method := "POST";
         json := false;
         headers := [("accept", "application/json"); ("content-type", "multipart/form-data")] |}
  | createCollection =>
      {| requiredParams := Some ["environment_id"; "name"];
         formData := None;
         formData_optional := [];
         body := Some [("name", "name"); ("description", "description"); ("configuration_id", "configuration_id"); ("language", "language")];
         qs := None;
         path := Some [("environment_id", "environment_id")];
         url := "/v1/environments/{environment_id}/collections";
         method := "POST";
         json := true;
         headers := [("accept", "application/json"); ("content-type", "application/json")] |}
  | deleteCollection =>
      {| requiredParams := Some ["environment_id"; "collection_id"];
         formData := None;
         formData_optional := [];
         body := None;
         qs := None;
         path := Some [("environment_id", "environment_id"); ("collection_id", "collection_id")];
         url := "/v1/environments/{environment_id}/collections/{collection_id}";
         method := "DELETE";
         json := false;
         headers := [("accept", "application/json"); ("content-type", "application/json")] |}
  | getCollection =>
      {| requiredParams := Some ["environment_id"; "collection_id"];
         formData := None;
         formData_optional := [];
         body := None;
         qs := None;
         path := Some [("environment_id", "environment_id"); ("collection_id", "collection_id")];
         url := "/v1/environments/{environment_id}/collections/{collection_id}";
         method := "GET";
         json := false;
         headers := [("accept", "application/json"); ("content-type", "application/json")] |}
  | listCollectionFields =>
      {| requiredParams := Some ["environment_id"; "collection_id"];
         formData := None;
         formData_optional := [];
         body := None;
         qs := None;
         path := Some [("environment_id", "environment_id"); ("collection_id", "collection_id")];
         url := "/v1/environments/{environment_id}/collections/{collection_id}/fields";
         method := "GET";
         json := false;
         headers := [("accept", "application/json"); ("content-type", "application/json")] |}
  | listCollections =>
      {| requiredParams := Some ["environment_id"];
         formData := None;
         formData_optional := [];
         body := None;
         qs := Some [("name", "name")];
         path := Some [("environment_id", "environment_id")];
         url := "/v1/environments/{environment_id}/collections";
         method := "GET";
         json := false;
         headers := [("accept", "application/json"); ("content-type", "application/json")] |}
  | updateCollection =>
      {| requiredParams := Some ["environment_id"; "collection_id"];
         formData := None;
         formData_optional := [];
         body := Some [("name", "name"); ("description", "description"); ("configuration_id", "configuration_id")];
         qs := None;
         path := Some [("environment_id", "environment_id"); ("collection_id", "collection_id")];
         url := "/v1/environments/{environment_id}/collections/{collection_id}";
         method := "PUT";
         json := true;
         headers := [("accept", "application/json"); ("content-type", "application/json")] |}
  | addDocument =>
      {| requiredParams := Some ["environment_id"; "collection_id"];
         formData := Some [{| part := "file"; data := "file"; contentType := FromParam "file_content_type" |}];
         formData_optional := ["metadata"];
         body := None;
         qs := None;
         path := Some [("environment_id", "environment_id"); ("collection_id", "collection_id")];
         url := "/v1/environments/{environment_id}/collections/{collection_id}/documents";
         method := "POST";
         json := false;
         headers := [("accept", "application/json"); ("content-type", "multipart/form-data")] |}
  | deleteDocument =>
      {| requiredParams := Some ["environment_id"; "collection_id"; "document_id"];
         formData := None;
         formData_optional := [];
         body := None;
         qs := None;
         path := Some [("environment_id", "environment_id"); ("collection_id", "collection_id"); ("document_id", "document_id")];
         url := "/v1/environments/{environment_id}/collections/{collection_id}/documents/{document_id}";
         method := "DELETE";
         json := false;
         headers := [("accept", "application/json"); ("content-type", "application/json")] |}
  | getDocumentStatus =>
      {| requiredParams := Some ["environment_id"; "collection_id"; "document_id"];
         formData := None;
         formData_optional := [];
         body := None;
         qs := None;
         path := Some [("environment_id", "environment_id"); ("collection_id", "collection_id"); ("document_id", "document_id")];
         url := "/v1/environments/{environment_id}/collections/{collection_id}/documents/{document_id}";
         method := "GET";
         json := false;
         headers := [("accept", "application/json"); ("content-type", "application/json")] |}
  | updateDocument =>
      {| requiredParams := Some ["environment_id"; "collection_id"; "document_id"];
         formData := Some [{| part := "file"; data := "file"; contentType := FromParam "file_content_type" |}];
         formData_optional := ["metadata"];
         body := None;
         qs := None;
         path := Some [("environment_id", "environment_id"); ("collection_id", "collection_id"); ("document_id", "document_id")];
         url := "/v1/environments/{environment_id}/collections/{collection_id}/documents/{document_id}";
         method := "POST";
         json := false;
         headers := [("accept", "application/json"); ("content-type", "multipart/form-data")] |}
  | federatedQuery =>
      {| requiredParams := Some ["environment_id"; "collection_ids"];
         formData := None;
         formData_optional := [];
         body := None;
         qs := Some [("collection_ids", "collection_ids"); ("filter", "filter"); ("query", "query"); ("natural_language_query", "natural_language_query"); ("aggregation", "aggregation"); ("count", "count"); ("return_fields", "return_fields"); ("offset", "offset"); ("sort", "sort"); ("highlight", "highlight"); ("deduplicate", "deduplicate"); ("deduplicate_field", "deduplicate_field")];
         path := Some [("environment_id", "environment_id")];
         url := "/v1/environments/{environment_id}/query";
         method := "GET";
         json := false;
         headers := [("accept", "application/json"); ("content-type", "application/json")] |}
  | federatedQueryNotices =>
      {| requiredParams := Some ["environment_id"; "collection_ids"];
         formData := None;
         formData_optional := [];
         body := None;
         qs := Some [("collection_ids", "collection_ids"); ("filter", "filter"); ("query", "query"); ("natural_language_query", "natural_language_query"); ("aggregation", "aggregation"); ("count", "count"); ("return_fields", "return_fields"); ("offset", "offset"); ("sort", "sort"); ("highlight", "highlight"); ("deduplicate_field", "deduplicate_field")];
         path := Some [("environment_id", "environment_id")];
         url := "/v1/environments/{environment_id}/notices";
         method := "GET";
         json := false;
         headers := [("accept", "application/json"); ("content-type", "application/json")] |}
  | query =>
      {| requiredParams := Some ["environment_id"; "collection_id"];
         formData := None;
         formData_optional := [];
         body := None;
         qs := Some [("filter", "filter"); ("query", "query"); ("natural_language_query", "natural_language_query"); ("passages", "passages"); ("aggregation", "aggregation"); ("count", "count"); ("return", "return_fields"); ("offset", "offset"); ("sort", "sort"); ("highlight", "highlight"); ("passages_fields", "passages_fields"); ("passages_count", "passages_count"); ("passages_characters", "passages_characters"); ("deduplicate", "deduplicate"); ("deduplicate_field", "deduplicate_field")];
         path := Some [("environment_id", "environment_id"); ("collection_id", "collection_id")];
         url := "/v1/environments/{environment_id}/collections/{collection_id}/query";
         method := "GET";
         json := false;
         headers := [("accept", "application/json"); ("content-type", "application/json")] |}
  | queryNotices =>
      {| requiredParams := Some ["environment_id"; "collection_id"];
         formData := None;
         formData_optional := [];
         body := None;
         qs := Some [("filter", "filter"); ("query", "query"); ("natural_language_query", "natural_language_query"); ("passages", "passages"); ("aggregation", "aggregation"); ("count", "count"); ("return_fields", "return_fields"); ("offset", "offset"); ("sort", "sort"); ("highlight", "highlight"); ("passages_fields", "passages_fields"); ("passages_count", "passages_count"); ("passages_characters", "passages_characters"); ("deduplicate_field", "deduplicate_field")];
         path := Some [("environment_id", "environment_id"); ("collection_id", "collection_id")];
         url := "/v1/environments/{environment_id}/collections/{collection_id}/notices";
         method := "GET";
         json := false;
         headers := [("accept", "application/json"); ("content-type", "application/json")] |}
  | addTrainingData =>
      {| requiredParams := Some ["environment_id"; "collection_id"];
         formData := None;
         formData_optional := [];
         body := Some [("natural_language_query", "natural_language_query"); ("filter", "filter"); ("examples", "examples")];
         qs := None;
         path := Some [("environment_id", "environment_id"); ("collection_id", "collection_id")];
         url := "/v1/environments/{environment_id}/collections/{collection_id}/training_data";
         method := "POST";
         json := true;
         headers := [("accept", "application/json"); ("content-type", "application/json")] |}
  | createTrainingExample =>
      {| requiredParams := Some ["environment_id"; "collection_id"; "query_id"];
         formData := None;
         formData_optional := [];
         body := Some [("document_id", "document_id"); ("cross_reference", "cross_reference"); ("relevance", "relevance")];
         qs := None;
         path := Some [("environment_id", "environment_id"); ("collection_id", "collection_id"); ("query_id", "query_id")];
         url := "/v1/environments/{environment_id}/collections/{collection_id}/training_data/{query_id}/examples";
         method := "POST";
         json := true;
         headers := [("accept", "application/json"); ("content-type", "application/json")] |}
  | deleteAllTrainingData =>
      {| requiredParams := Some ["environment_id"; "collection_id"];
         formData := None;
         formData_optional := [];
         body := None;
         qs := None;
         path := Some [("environment_id", "environment_id"); ("collection_id", "collection_id")];
         url := "/v1/environments/{environment_id}/collections/{collection_id}/training_data";
         method := "DELETE";
         json := false;
         headers := [("accept", "application/json"); ("content-type", "application/json")] |}
  | deleteTrainingData =>
      {| requiredParams := Some ["environment_id"; "collection_id"; "query_id"];
         formData := None;
         formData_optional := [];
         body := None;
         qs := None;
         path := Some [("environment_id", "environment_id"); ("collection_id", "collection_id"); ("query_id", "query_id")];
         url := "/v1/environments/{environment_id}/collections/{collection_id}/training_data/{query_id}";
         method := "DELETE";
         json := false;
         headers := [("accept", "application/json"); ("content-type", "application/json")] |}
  | deleteTrainingExample =>
      {| requiredParams := Some ["environment_id"; "collection_id"; "query_id"; "example_id"];
         formData := None;
         formData_optional := [];
         body := None;
         qs := None;
         path := Some [("environment_id", "environment_id"); ("collection_id", "collection_id"); ("query_id", "query_id"); ("example_id", "example_id")];
         url := "/v1/environments/{environment_id}/collections/{collection_id}/training_data/{query_id}/examples/{example_id}";
         method := "DELETE";
         json := false;
         headers := [("accept", "application/json"); ("content-type", "application/json")] |}
  | getTrainingData =>
      {| requiredParams := Some ["environment_id"; "collection_id"; "query_id"];
         formData := None;
         formData_optional := [];
         body := None;
         qs := None;
         path := Some [("environment_id", "environment_id"); ("collection_id", "collection_id"); ("query_id", "query_id")];
         url := "/v1/environments/{environment_id}/collections/{collection_id}/training_data/{query_id}";
         method := "GET";
         json := false;
         headers := [("accept", "application/json"); ("content-type", "application/json")] |}
  | getTrainingExample =>
      {| requiredParams := Some ["environment_id"; "collection_id"; "query_id"; "example_id"];
         formData := None;
         formData_optional := [];
         body := None;
         qs := None;
         path := Some [("environment_id", "environment_id"); ("collection_id", "collection_id"); ("query_id", "query_id"); ("example_id", "example_id")];
         url := "/v1/environments/{environment_id}/collections/{collection_id}/training_data/{query_id}/examples/{example_id}";
         method := "GET";
         json := false;
         headers := [("accept", "application/json"); ("content-type", "application/json")] |}
  | listTrainingData =>
      {| requiredParams := Some ["environment_id"; "collection_id"];
         formData := None;
         formData_optional := [];
         body := None;
         qs := None;
         path := Some [("environment_id", "environment_id"); ("collection_id", "collection_id")];
         url := "/v1/environments/{environment_id}/collections/{collection_id}/training_data";
         method := "GET";
         json := false;
         headers := [("accept", "application/json"); ("content-type", "application/json")] |}
  | updateTrainingExample =>
      {| requiredParams := Some ["environment_id"; "collection_id"; "query_id"; "example_id"];
         formData := None;
         formData_optional := [];
         body := Some [("cross_reference", "cross_reference"); ("relevance", "relevance")];
         qs := None;
         path := Some [("environment_id", "environment_id"); ("collection_id", "collection_id"); ("query_id", "query_id"); ("example_id", "example_id")];
         url := "/v1/environments/{environment_id}/collections/{collection_id}/training_data/{query_id}/examples/{example_id}";
         method := "PUT";
         json := true;
         headers := [("accept", "application/json"); ("content-type", "application/json")] |}
  end.

Definition VERSION_DATE_2017_09_01 : string := "2017-09-01".

Definition VERSION_DATE_2017_08_01 : string := "2017-08-01".

Definition VERSION_DATE_2017_07_19 : string := "2017-07-19".

Definition VERSION_DATE_2017_06_25 : string := "2017-06-25".

Definition VERSION_DATE_2016_12_01 : string := "2016-12-01".

Definition version_date_error : string :=
  "Argument error: version_date was not specified, use DiscoveryV1.VERSION_DATE_2017_09_01".

Section Constructor.

(** [super(options)]: the constructor of [BaseService] ([lib/base_service],
    not under src/) sets [this._options] or throws. *)
Variable BaseService : value -> store -> completion (service * store).

(** v1.ts:49-56 *)
Definition constructor (opts : value) (h : store) : completion (service * store) :=
  r <- BaseService opts h ;;
  let this := fst r in
  let h1 := snd r in
  let o := obj_at h1 (_options this) in
  if String.eqb (typeof (assoc "version_date" o)) "undefined"
  then Throw (Error version_date_error)
  else
    (* this._options.qs.version = options.version_date; *)
    v <- get opts "version_date" ;;
    qs' <- set (assoc "qs" o) "version" v ;;
    Normal (this, <[_options this := assoc_set "qs" qs' o]> h1).

End Constructor.

End DiscoveryV1.

(** A method of either class. *)
Inductive binding : Type :=
  | LanguageTranslator (m : LanguageTranslatorV2.operation)
  | Discovery (m : DiscoveryV1.operation).

Definition endpoint_of (b : binding) : endpoint :=
  match b with
  | LanguageTranslator m => LanguageTranslatorV2.endpoint_of m
  | Discovery m => DiscoveryV1.endpoint_of m
  end.

(** ** The generated template *)

(** The argument of [requestFactory]. *)
Record parameters : Type :=
  { options : value;
    defaultOptions : loc }.

(** How a call of a method ends: each path through a method makes exactly
    one call outwards, in tail position, or throws. *)
Inductive outcome : Type :=
  | Returned_callback (callback : value) (err : value)
      (** [return callback(missingParams)] *)
  | Returned_requestFactory (p : parameters) (callback : value)
      (** [return requestFactory(parameters, callback)] *)
  | Thrown (e : error).

Definition callback_calls (o : outcome) : nat :=
  match o with
  | Returned_callback _ _ => 1
  | _ => 0
  end.

Definition requestFactory_calls (o : outcome) : nat :=
  match o with
  | Returned_requestFactory _ _ => 1
  | _ => 0
  end.

(** [{ k1: params.p1, k2: params.p2, ... }] *)
Fixpoint object_literal (params : value) (fields : list (string * string))
  : completion (list (string * value)) :=
  match fields with
  | [] => Normal []
  | (k, p) :: rest =>
      v <- get params p ;;
      fs <- object_literal params rest ;;
      Normal ((k, v) :: fs)
  end.

Definition optional_literal (params : value) (fields : option (list (string * string)))
  : completion (option value) :=
  match fields with
  | None => Normal None
  | Some fields => fs <- object_literal params fields ;; Normal (Some (VObj fs))
  end.

(** [k: v] in the [options] literal, when the method has it. *)
Definition entry (k : string) (v : option value) : list (string * value) :=
  match v with
  | None => []
  | Some v => [(k, v)]
  end.

(** An object literal of strings, [{ k1: 'v1', ... }]. *)
Definition string_literals (hs : list (string * string)) : list (string * literal) :=
  map (fun kv => (fst kv, LStr (snd kv))) hs.

Section Bindings.

(** [helper.buildRequestFileObject] of [lib/helper] and the built-in
    [JSON.stringify]: neither is under src/, and the bindings only pass
    their results on.  [JSON.stringify] runs on a value of the caller and
    can throw (a cyclic object, a throwing [toJSON]); the helper, which
    wraps its argument into a part of the form, is taken to return. *)
Variable buildRequestFileObject : value -> value.
Variable JSON_stringify : value -> completion string.

Fixpoint file_parts (params : value) (parts : list file_part)
  : completion (list (string * value)) :=
  match parts with
  | [] => Normal []
  | p :: rest =>
      d <- get params (data p) ;;
      ct <- match contentType p with
            | Fixed s => Normal (VStr s)
            | FromParam name => get params name
            end ;;
      fs <- file_parts params rest ;;
      Normal ((part p, buildRequestFileObject (VObj [("data", d); ("contentType", ct)])) :: fs)
  end.

(** [if (params.k) { formData.k = typeof params.k === 'object' ?
    JSON.stringify(params.k) : params.k; }] for each [k]. *)
Fixpoint optional_parts (params : value) (names : list string)
                        (form : list (string * value))
  : completion (list (string * value)) :=
  match names with
  | [] => Normal form
  | k :: rest =>
      v <- get params k ;;
      form' <- (if truthy v
                then sent <- (if String.eqb (typeof v) "object"
                              then s <- JSON_stringify v ;; Normal (VStr s)
                              else Normal v) ;;
                     Normal (assoc_set k sent form)
                else Normal form) ;;
      optional_parts params rest form'
  end.

Definition form_literal (e : endpoint) (params : value) : completion (option value) :=
  match formData e with
  | None => Normal None
  | Some parts =>
      fs <- file_parts params parts ;;
      fs' <- optional_parts params (formData_optional e) fs ;;
      Normal (Some (VObj fs'))
  end.

(** The local declarations of a method in source order ([formData],
    [body], [query], [path]) and then the [options] literal. *)
Definition build_options (e : endpoint) (params : value) : completion value :=
  form <- form_literal e params ;;
  body' <- optional_literal params (body e) ;;
  query <- optional_literal params (qs e) ;;
  path' <- optional_literal params (path e) ;;
  Normal (VObj ([("url", VStr (url e)); ("method", VStr (method e))]
                ++ (if json e then [("json", VBool true)] else [])
                ++ entry "body" body'
                ++ entry "qs" query
                ++ entry "path" path'
                ++ entry "formData" form)).

(** [{ headers: { ... } }], the second argument of [extend]. *)
Definition headers_literal (e : endpoint) : list (string * literal) :=
  [("headers", LObj (string_literals (headers e)))].

(** [callback(err)]; calling what is not a function is a TypeError. *)
Definition apply_callback (callback err : value) : outcome :=
  match callback with
  | VFun _ _ => Returned_callback callback err
  | _ => Thrown TypeError
  end.

(** From the local declarations to [return requestFactory(parameters, callback)]. *)
Definition send (e : endpoint) (this : service) (h : store) (params callback : value)
  : store * outcome :=
  match build_options e params with
  | Throw err => (h, Thrown err)
  | Normal opts =>
      let '(h', defaults) := extend h (_options this) (headers_literal e) in
      (h', Returned_requestFactory {| options := opts; defaultOptions := defaults |} callback)
  end.

(** A generated method. *)
Definition invoke (e : endpoint) (this : service) (h : store) (params callback : value)
  : store * outcome :=
  match requiredParams e with
  | Some required =>
      (* const missingParams = helper.getMissingParams(params || {}, requiredParams);
         if (missingParams && callback) return callback(missingParams); *)
      let missingParams := getMissingParams (or_else params (VObj [])) required in
      if truthy missingParams && truthy callback
      then (h, apply_callback callback missingParams)
      else send e this h params callback
  | None =>
      (* params = params || {};
         if (typeof params === 'function' && !callback) { callback = params; params = {}; } *)
      let params := or_else params (VObj []) in
      if String.eqb (typeof params) "function" && negb (truthy callback)
      then send e this h (VObj []) params
      else send e this h params callback
  end.

Definition call (b : binding) : service -> store -> value -> value -> store * outcome :=
  invoke (endpoint_of b).

End Bindings.

(** ** Calls in sequence on one client *)

Record invocation : Type :=
  { target : binding; params : value; callback : value }.

(** The calls of [calls] one after the other; for each, the store as the
    call leaves it (and as [requestFactory] finds it) and how the call ended. *)
Fixpoint run (bf : value -> value) (js : value -> completion string)
             (this : service) (h : store) (calls : list invocation)
  : list (store * outcome) :=
  match calls with
  | [] => []
  | c :: rest =>
      let r := call bf js (target c) this h (params c) (callback c) in
      r :: run bf js this (fst r) rest
  end.

(** ** URL templates *)

(** Modelled from the spec: the placeholder syntax of the Path Template
    Expander, which is part of [lib/requestwrapper] and not under src/.
    Spec 4.2: "Every occurrence of {key} in template is replaced".
    [scan_placeholders inside t] lists the keys between braces in [t];
    [inside] is the key being read, if any. *)
Fixpoint scan_placeholders (inside : option string) (template : string) : list string :=
  match template with
  | EmptyString => []
  | String c rest =>
      match inside with
      | None =>
          if Ascii.eqb c "{"%char then scan_placeholders (Some "") rest
          else scan_placeholders None rest
      | Some key =>
          if Ascii.eqb c "}"%char then key :: scan_placeholders None rest
          else scan_placeholders (Some (key +:+ String c "")) rest
      end
  end.

Definition placeholders (template : string) : list string :=
  scan_placeholders None template.

(** The placeholders of the [url] of a descriptor. *)
Definition url_placeholders (opts : value) : list string :=
  match prop opts "url" with
  | VStr template => placeholders template
  | _ => []
  end.

Definition key_if {A : Type} (k : string) (o : option A) : list string :=
  match o with
  | Some _ => [k]
  | None => []
  end.

(** The keys of the [options] literal of a method. *)
Definition options_keys (e : endpoint) : list string :=
  ["url"; "method"]
  ++ (if json e then ["json"] else [])
  ++ key_if "body" (body e)
  ++ key_if "qs" (qs e)
  ++ key_if "path" (path e)
  ++ key_if "formData" (formData e).

(** The plain object a deep [extend] merges into. *)
Definition plain_object (v : value) : list (string * value) :=
  match v with
  | VObj own => own
  | _ => []
  end.

(** ** Shapes of descriptors *)

(** What an optional literal evaluates to: absent when the method has
    none, an object with the keys of the literal otherwise. *)
Definition literal_result (fields : option (list (string * string))) (r : option value) : Prop :=
  match fields, r with
  | None, None => True
  | Some fields, Some (VObj fs) => map fst fs = map fst fields
  | _, _ => False
  end.

(** [exclusive keys]: the keys never include both [body] and [formData],
    and a [body] comes with [json: true]. *)
Definition exclusive (keys : list string) : bool :=
  negb (existsb (String.eqb "body") keys && existsb (String.eqb "formData") keys)
  && implb (existsb (String.eqb "body") keys) (existsb (String.eqb "json") keys).

(** ** A client to evaluate calls on *)

(** Stand-ins for [helper.buildRequestFileObject], [JSON.stringify] and the
    constructor of [BaseService], for evaluating calls on concrete
    arguments: a part is its description, every serialization is the
    empty object ([stringify_throws] is a [JSON.stringify] that throws
    instead), and [BaseService] sets [_options] to a copy of the
    options with an empty [qs]. *)
Definition part_of_description (fileParams : value) : value := fileParams.

Definition serialized_empty (v : value) : completion string := Normal "{}".

Definition stringify_throws (v : value) : completion string := Throw TypeError.

Definition copy_options (opts : value) (h : store) : completion (service * store) :=
  Normal ({| _options := 0 |},
          <[0 := assoc_set "qs" (VObj []) (plain_object opts)]> h).

(** A client of LanguageTranslatorV2 before its first call. *)
Definition translator : service := {| _options := 0 |}.

Definition translator_store : store :=
  {[ 0 := [("url", VStr "https://gateway.watsonplatform.net/language-translator/api");
           ("username", VStr "user");
           ("password", VStr "secret");
           ("qs", VObj [])] ]}.

(** A client of DiscoveryV1, and the options it is constructed from. *)
Definition discovery : service := {| _options := 0 |}.

Definition discovery_options : value :=
  VObj [("username", VStr "user");
        ("password", VStr "secret");
        ("version_date", VStr DiscoveryV1.VERSION_DATE_2017_09_01)].

Definition discovery_store : store :=
  {[ 0 := [("username", VStr "user");
           ("password", VStr "secret");
           ("version_date", VStr "2017-09-01");
           ("qs", VObj [("version", VStr "2017-09-01")])] ]}.

Abbreviation call' := (call part_of_description serialized_empty).

Abbreviation translate' := (LanguageTranslator LanguageTranslatorV2.translate).

Abbreviation addDocument' := (Discovery DiscoveryV1.addDocument).

Abbreviation deleteDocument' := (Discovery DiscoveryV1.deleteDocument).

Definition document_params : value :=
  VObj [("environment_id", VStr "env"); ("collection_id", VStr "col");
        ("document_id", VStr "doc"); ("metadata", VObj [("Creator", VStr "J")])].

(** ** What a call sends, by method *)

(** The parameter bag that the literals of a method read. *)
Definition bag (e : endpoint) (params callback : value) : value :=
  match requiredParams e with
  | Some _ => params
  | None =>
      if String.eqb (typeof (or_else params (VObj []))) "function" && negb (truthy callback)
      then VObj []
      else or_else params (VObj [])
  end.

(** The callback that a method hands to [requestFactory]. *)
Definition passed_callback (e : endpoint) (params callback : value) : value :=
  match requiredParams e with
  | Some _ => callback
  | None =>
      if String.eqb (typeof (or_else params (VObj []))) "function" && negb (truthy callback)
      then or_else params (VObj [])
      else callback
  end.

(** [{ k1: bag.p1, ... }] as a value, [undefined] for a method without the literal. *)
Definition literal_value (ps : value) (fields : option (list (string * string))) : value :=
  match fields with
  | Some fields => VObj (map (fun kp => (fst kp, prop ps (snd kp))) fields)
  | None => VUndefined
  end.

Definition fields_of (fields : option (list (string * string))) : list (string * string) :=
  match fields with
  | Some fields => fields
  | None => []
  end.

(** The literal of a method that is sent under [section] of the descriptor. *)
Definition section_fields (e : endpoint) (section : string) : list (string * string) :=
  if String.eqb section "body" then fields_of (body e)
  else if String.eqb section "qs" then fields_of (qs e)
  else if String.eqb section "path" then fields_of (path e)
  else [].

(** The parameter whose value a method sends under key [k] of [section]:
    [k] itself, but for [default: params.default_models] of [listModels]
    (v2.ts:256) and [return: params.return_fields] of [query] (v1.ts:951). *)
Definition parameter_of (b : binding) (section k : string) : string :=
  match b with
  | LanguageTranslator LanguageTranslatorV2.listModels =>
      if String.eqb section "qs" && String.eqb k "default" then "default_models" else k
  | Discovery DiscoveryV1.query =>
      if String.eqb section "qs" && String.eqb k "return" then "return_fields" else k
  | _ => k
  end.

Fixpoint distinct (l : list string) : bool :=
  match l with
  | [] => true
  | x :: rest => negb (existsb (String.eqb x) rest) && distinct rest
  end.

Definition sections : list string := ["body"; "qs"; "path"].

(** The checks on a row of the table that the properties below rest on. *)
Definition row_keys_distinct (e : endpoint) : bool :=
  forallb (fun section => distinct (map fst (section_fields e section))) sections.

Definition row_parameters (b : binding) : bool :=
  forallb (fun section =>
             forallb (fun kp => String.eqb (snd kp) (parameter_of b section (fst kp)))
                     (section_fields (endpoint_of b) section))
          sections.

Definition row_required_sent (e : endpoint) : bool :=
  forallb (fun r =>
             existsb (fun section =>
                        existsb (fun kp => String.eqb (fst kp) r && String.eqb (snd kp) r)
                                (section_fields e section))
                     sections)
          (match requiredParams e with Some required => required | None => [] end).

Definition row_path_required (e : endpoint) : bool :=
  forallb (fun kp =>
             String.eqb (fst kp) (snd kp)
             && existsb (String.eqb (snd kp))
                  (match requiredParams e with Some required => required | None => [] end))
          (fields_of (path e)).

(** GET and DELETE come without [body] and [formData]; POST and PUT come
    with one of them. *)
Definition row_method (e : endpoint) : bool :=
  if String.eqb (method e) "GET" || String.eqb (method e) "DELETE"
  then match body e, formData e with None, None => true | _, _ => false end
  else (String.eqb (method e) "POST" || String.eqb (method e) "PUT")
       && match body e, formData e with None, None => false | _, _ => true end.

(** [JSON.stringify] returns on every optional form part of the method
    that it is called on: the truthy ones whose [typeof] is ['object']. *)
Definition stringifies (js : value -> completion string) (e : endpoint) (ps : value) : Prop :=
  forall k,
    In k (formData_optional e) ->
    truthy (prop ps k) = true ->
    typeof (prop ps k) = "object" ->
    exists s, js (prop ps k) = Normal s.

(** [sent] is [typeof v === 'object' ? JSON.stringify(v) : v], with a
    [JSON.stringify] that returned. *)
Definition stringified (js : value -> completion string) (v sent : value) : Prop :=
  if String.eqb (typeof v) "object"
  then exists s, js v = Normal s /\ sent = VStr s
  else sent = v.

(** The argument of [helper.buildRequestFileObject] for a part. *)
Definition part_description (ps : value) (p : file_part) : value :=
  VObj [("data", prop ps (data p));
        ("contentType", match contentType p with
                        | Fixed s => VStr s
                        | FromParam name => prop ps name
                        end)].

Definition parts_of (parts : option (list file_part)) : list file_part :=
  match parts with
  | Some parts => parts
  | None => []
  end.

(** The names of the file parts of a row are distinct and none is the
    name of an optional part; the optional parts are distinct. *)
Definition row_parts (e : endpoint) : bool :=
  distinct (map part (parts_of (formData e)) ++ formData_optional e).

(** A [BaseService] that copies the options and sets no [qs]. *)
Definition copy_options_without_qs (opts : value) (h : store)
  : completion (service * store) :=
  Normal ({| _options := 0 |}, <[0 := plain_object opts]> h).

Section LanguageTranslatorV2_construction.

(** [super(options)] *)
Variable BaseService : value -> store -> completion (service * store).

(** The constructor of LanguageTranslatorV2 (v2.ts:38-40): [super(options)]
    and nothing else. *)
Definition LanguageTranslatorV2_constructor (opts : value) (h : store)
  : completion (service * store) :=
  BaseService opts h.

End LanguageTranslatorV2_construction.

Abbreviation listModels' := (LanguageTranslator LanguageTranslatorV2.listModels).

Abbreviation deleteModel' := (LanguageTranslator LanguageTranslatorV2.deleteModel).

Abbreviation createModel' := (LanguageTranslator LanguageTranslatorV2.createModel).

(** The descriptor of [deleteModel({model_id: 'custom'})]. *)
Definition deleteModel_custom : parameters :=
  {| options := VObj [("url", VStr "/v2/models/{model_id}"); ("method", VStr "DELETE");
                      ("path", VObj [("model_id", VStr "custom")])];
     defaultOptions := 0 |}.

(** The descriptor of [addDocument] for an environment and a collection,
    with [metadata: ''] and no file. *)
Definition addDocument_without_file : parameters :=
  {| options :=
       VObj [("url",
              VStr "/v1/environments/{environment_id}/collections/{collection_id}/documents");
             ("method", VStr "POST");
             ("path", VObj [("environment_id", VStr "env"); ("collection_id", VStr "col")]);
             ("formData",
              VObj [("file", VObj [("data", VUndefined); ("contentType", VUndefined)])])];
     defaultOptions := 0 |}.

Definition collection_params : value :=
  VObj [("environment_id", VStr "env"); ("collection_id", VStr "col");
        ("metadata", VStr "")].

(** * Properties *)

(** ** Objects *)

Lemma assoc_set_eq k v fields : assoc k (assoc_set k v fields) = v.
Proof.
  induction fields as [|[k' v'] rest IH]; simpl.
  - by rewrite String.eqb_refl.
  - destruct (String.eqb k k') eqn:E; simpl; rewrite E; [done | exact IH].
Qed.

Lemma assoc_set_ne k k' v fields :
  k <> k' -> assoc k (assoc_set k' v fields) = assoc k fields.
Proof.
  intros Hne. induction fields as [|[k'' v''] rest IH]; simpl.
  - apply String.eqb_neq in Hne. by rewrite Hne.
  - destruct (String.eqb k' k'') eqn:E; simpl.
    + apply String.eqb_eq in E. subst k''.
      apply String.eqb_neq in Hne. by rewrite Hne.
    + by rewrite IH.
Qed.

Lemma assoc_not_key k fields : ~ In k (map fst fields) -> assoc k fields = VUndefined.
Proof.
  induction fields as [|[k' v'] rest IH]; simpl; [done |].
  intros Hn. destruct (String.eqb k k') eqn:E.
  - apply String.eqb_eq in E. subst. tauto.
  - apply IH. tauto.
Qed.

Lemma assoc_here k v rest : assoc k ((k, v) :: rest) = v.
Proof. simpl. by rewrite String.eqb_refl. Qed.

Lemma assoc_skip k k' v rest : k <> k' -> assoc k ((k', v) :: rest) = assoc k rest.
Proof. intros Hne. simpl. apply String.eqb_neq in Hne. by rewrite Hne. Qed.

Lemma assoc_app_skip k l1 l2 :
  ~ In k (map fst l1) -> assoc k (l1 ++ l2) = assoc k l2.
Proof.
  induction l1 as [|[k' v] rest IH]; [done |]. intros Hn.
  rewrite <- app_comm_cons, assoc_skip; [apply IH | ]; simpl in Hn; intuition.
Qed.

(** ** [extend] *)

Lemma extend_value_object src fields :
  extend_value src (LObj fields) = VObj (extend_deep (plain_object src) fields).
Proof.
  reflexivity.
Qed.

Lemma extend_deep_strings_other name hs target :
  ~ In name (map fst hs) ->
  assoc name (extend_deep target (string_literals hs)) = assoc name target.
Proof.
  revert target. induction hs as [|[k v] rest IH]; intros target Hn; simpl in *; [done |].
  rewrite IH by tauto. apply assoc_set_ne. intros ->. tauto.
Qed.

Lemma extend_deep_strings_set name v hs target :
  List.NoDup (map fst hs) -> In (name, v) hs ->
  assoc name (extend_deep target (string_literals hs)) = VStr v.
Proof.
  revert target. induction hs as [|[k w] rest IH]; intros target Hnd Hin; simpl in *; [done |].
  inversion Hnd as [|? ? Hk Hrest]; subst.
  destruct Hin as [Heq | Hin].
  - inversion Heq; subst. rewrite extend_deep_strings_other by done. apply assoc_set_eq.
  - by apply IH.
Qed.

(** The object that [extend(true, target, { headers: hs })] leaves at the
    target. *)
Lemma extend_deep_headers e target :
  extend_deep target (headers_literal e)
  = assoc_set "headers"
      (VObj (extend_deep (plain_object (assoc "headers" target)) (string_literals (headers e))))
      target.
Proof. reflexivity. Qed.

(** ** Building the request descriptor *)

Lemma get_defined params k : nullish params = false -> get params k = Normal (prop params k).
Proof. unfold get. by intros ->. Qed.

Lemma get_nullish params k : nullish params = true -> get params k = Throw TypeError.
Proof. unfold get. by intros ->. Qed.

Lemma object_literal_defined params fields :
  nullish params = false ->
  object_literal params fields = Normal (map (fun kp => (fst kp, prop params (snd kp))) fields).
Proof.
  intros Hp. induction fields as [|[k p] rest IH]; simpl; [done |].
  by rewrite get_defined, IH.
Qed.

Lemma object_literal_keys params fields fs :
  object_literal params fields = Normal fs -> map fst fs = map fst fields.
Proof.
  revert fs. induction fields as [|[k p] rest IH]; intros fs; simpl.
  - by intros [= <-].
  - destruct (get params p); simpl; [|done].
    destruct (object_literal params rest); simpl; [|done].
    intros [= <-]. simpl. f_equal. by apply IH.
Qed.

Lemma optional_literal_result params fields r :
  optional_literal params fields = Normal r -> literal_result fields r.
Proof.
  destruct fields as [fields|]; simpl.
  - destruct (object_literal params fields) eqn:E; simpl; [|done].
    intros [= <-]. simpl. by apply object_literal_keys in E.
  - by intros [= <-].
Qed.

Lemma optional_literal_defined params fields :
  nullish params = false -> exists r, optional_literal params fields = Normal r.
Proof.
  intros Hp. destruct fields as [fields|]; simpl; [|by eexists].
  rewrite object_literal_defined by done. simpl. by eexists.
Qed.

Lemma entry_key k v : map fst (entry k v) = key_if k v.
Proof. by destruct v. Qed.

Lemma key_if_in {A} k k' (o : option A) : In k (key_if k' o) -> k = k'.
Proof. destruct o; simpl; intuition. Qed.

Lemma literal_result_keys k fields r :
  literal_result fields r -> key_if k r = key_if k fields.
Proof. destruct fields, r as [[]|]; simpl; done. Qed.

Lemma literal_result_entry k fields r :
  literal_result fields r ->
  own_keys (assoc k (entry k r)) = match fields with Some fs => map fst fs | None => [] end.
Proof.
  destruct fields, r as [[]|]; simpl; try done.
  by rewrite String.eqb_refl.
Qed.

Section Building.

Variable bf : value -> value.       (* helper.buildRequestFileObject *)
Variable js : value -> completion string.      (* JSON.stringify *)

Lemma file_parts_defined params parts :
  nullish params = false -> exists fs, file_parts bf params parts = Normal fs.
Proof.
  intros Hp. induction parts as [|p rest [fs IH]]; simpl; [by eexists |].
  rewrite get_defined by done. simpl.
  destruct (contentType p); simpl; [|rewrite get_defined by done; simpl];
    rewrite IH; simpl; by eexists.
Qed.

Lemma optional_parts_defined params names form :
  nullish params = false ->
  (forall k, In k names -> truthy (prop params k) = true ->
             typeof (prop params k) = "object" ->
             exists s, js (prop params k) = Normal s) ->
  exists fs, optional_parts js params names form = Normal fs.
Proof.
  intros Hp. revert form. induction names as [|k rest IH]; intros form Hjs; simpl;
    [by eexists |].
  rewrite get_defined by done. cbn [bind].
  assert (forall k', In k' rest -> truthy (prop params k') = true ->
                     typeof (prop params k') = "object" ->
                     exists s, js (prop params k') = Normal s) as Hrest.
  { intros k' Hin. apply Hjs. simpl. tauto. }
  destruct (truthy (prop params k)) eqn:Ht; cbn [bind]; [|by apply IH].
  destruct (String.eqb (typeof (prop params k)) "object") eqn:Eo; cbn [bind]; [|by apply IH].
  apply String.eqb_eq in Eo.
  destruct (Hjs k ltac:(simpl; tauto) Ht Eo) as [str ->]. cbn [bind]. by apply IH.
Qed.

Lemma form_literal_defined e params :
  nullish params = false -> stringifies js e params ->
  exists r, form_literal bf js e params = Normal r.
Proof.
  intros Hp Hjs. unfold form_literal.
  destruct (formData e) as [parts|]; [|by eexists].
  destruct (file_parts_defined params parts Hp) as [fs ->]. simpl.
  destruct (optional_parts_defined params (formData_optional e) fs Hp Hjs) as [fs' ->].
  simpl. by eexists.
Qed.

Lemma form_literal_result e params r :
  form_literal bf js e params = Normal r -> (r = None <-> formData e = None).
Proof.
  unfold form_literal.
  destruct (formData e) as [parts|].
  - destruct (file_parts bf params parts); simpl; [|done].
    destruct (optional_parts js params _ _); simpl; [|done].
    intros [= <-]. split; discriminate.
  - by intros [= <-].
Qed.

(** With a [params] that is not [null] or [undefined] no property read
    throws, and when [JSON.stringify] returns the descriptor is built. *)
Lemma build_options_defined e params :
  nullish params = false -> stringifies js e params ->
  exists opts, build_options bf js e params = Normal opts.
Proof.
  intros Hp Hjs. unfold build_options.
  destruct (form_literal_defined e params Hp Hjs) as [form ->]. simpl.
  destruct (optional_literal_defined params (body e) Hp) as [b ->]. simpl.
  destruct (optional_literal_defined params (qs e) Hp) as [q ->]. simpl.
  destruct (optional_literal_defined params (path e) Hp) as [p ->]. simpl.
  by eexists.
Qed.

(** The shape of a descriptor that was built. *)
Lemma build_options_shape e params opts :
  build_options bf js e params = Normal opts ->
  own_keys opts = options_keys e
  /\ prop opts "url" = VStr (url e)
  /\ prop opts "method" = VStr (method e)
  /\ prop opts "json" = (if json e then VBool true else VUndefined)
  /\ own_keys (prop opts "path") = match path e with Some fs => map fst fs | None => [] end
  /\ own_keys (prop opts "body") = match body e with Some fs => map fst fs | None => [] end.
Proof.
  unfold build_options.
  destruct (form_literal bf js e params) as [form|] eqn:Hform; simpl; [|done].
  apply form_literal_result in Hform.
  destruct (optional_literal params (body e)) as [b|] eqn:Hb; simpl; [|done].
  destruct (optional_literal params (qs e)) as [q|] eqn:Hq; simpl; [|done].
  destruct (optional_literal params (path e)) as [p|] eqn:Hpath; simpl; [|done].
  apply optional_literal_result in Hb, Hq, Hpath.
  intros [= <-].
  assert (key_if "formData" form = key_if "formData" (formData e)) as Hfk.
  { destruct form, (formData e); simpl; try done; destruct Hform as [H1 H2];
      [by specialize (H2 eq_refl) | by specialize (H1 eq_refl)]. }
  set (j := if json e then [("json", VBool true)] else []).
  assert (map fst j = if json e then ["json"] else []) as Hj by (subst j; by destruct (json e)).
  repeat split.
  - unfold own_keys, options_keys. simpl. do 2 f_equal.
    rewrite !map_app, !entry_key, Hj, Hfk.
    by rewrite (literal_result_keys _ _ _ Hb), (literal_result_keys _ _ _ Hq),
      (literal_result_keys _ _ _ Hpath).
  - unfold prop. rewrite assoc_skip by done. rewrite assoc_skip by done.
    subst j. destruct (json e); simpl app.
    + apply assoc_here.
    + rewrite !assoc_app_skip; try (rewrite entry_key; intros H; by apply key_if_in in H).
      by destruct form.
  - unfold prop. rewrite assoc_skip by done. rewrite assoc_skip by done.
    rewrite assoc_app_skip by (rewrite Hj; destruct (json e); simpl; intuition discriminate).
    rewrite assoc_app_skip by (rewrite entry_key; intros H; by apply key_if_in in H).
    rewrite assoc_app_skip by (rewrite entry_key; intros H; by apply key_if_in in H).
    destruct p as [pv|].
    + simpl app. rewrite assoc_here. by destruct (path e), pv.
    + simpl app. destruct (path e); [done |]. by destruct form.
  - unfold prop. rewrite assoc_skip by done. rewrite assoc_skip by done.
    rewrite assoc_app_skip by (rewrite Hj; destruct (json e); simpl; intuition discriminate).
    destruct b as [bv|].
    + simpl app. rewrite assoc_here. by destruct (body e), bv.
    + simpl app. destruct (body e); [done |].
      rewrite !assoc_app_skip; try (rewrite entry_key; intros H; by apply key_if_in in H).
      by destruct form.
Qed.
(** ** How a call ends *)

Lemma send_requestFactory e this h params cb h' p cb' :
  send bf js e this h params cb = (h', Returned_requestFactory p cb') ->
  build_options bf js e params = Normal (options p)
  /\ cb' = cb
  /\ defaultOptions p = _options this
  /\ h' = <[_options this := extend_deep (obj_at h (_options this)) (headers_literal e)]> h.
Proof.
  unfold send, extend.
  destruct (build_options bf js e params) as [opts|]; [|done].
  by intros [= <- <- <-].
Qed.

Lemma send_defined e this h params cb :
  nullish params = false ->
  stringifies js e params ->
  exists opts,
    build_options bf js e params = Normal opts
    /\ send bf js e this h params cb
       = (<[_options this := extend_deep (obj_at h (_options this)) (headers_literal e)]> h,
          Returned_requestFactory {| options := opts; defaultOptions := _options this |} cb).
Proof.
  intros Hp Hjs. destruct (build_options_defined e params Hp Hjs) as [opts Hopts].
  exists opts. split; [done |]. unfold send, extend. by rewrite Hopts.
Qed.

Lemma send_store e this h params cb :
  requestFactory_calls (snd (send bf js e this h params cb)) = 0 ->
  fst (send bf js e this h params cb) = h.
Proof.
  unfold send, extend. by destruct (build_options bf js e params).
Qed.

(** A method reaches [requestFactory] only through its tail. *)
Lemma invoke_requestFactory e this h params cb h' p cb' :
  invoke bf js e this h params cb = (h', Returned_requestFactory p cb') ->
  exists params' cb0,
    send bf js e this h params' cb0 = (h', Returned_requestFactory p cb').
Proof.
  unfold invoke. destruct (requiredParams e) as [required|].
  - destruct (truthy _ && truthy cb).
    + unfold apply_callback. by destruct cb.
    + eauto.
  - destruct (String.eqb _ _ && negb (truthy cb)); eauto.
Qed.

Lemma invoke_store e this h params cb :
  requestFactory_calls (snd (invoke bf js e this h params cb)) = 0 ->
  fst (invoke bf js e this h params cb) = h.
Proof.
  unfold invoke. destruct (requiredParams e) as [required|].
  - destruct (truthy _ && truthy cb); [done | apply send_store].
  - destruct (String.eqb _ _ && negb (truthy cb)); apply send_store.
Qed.

(** The store after a call: as it was, or with the headers of the
    method merged into [this._options]. *)
Lemma invoke_cases e this h params cb :
  let r := invoke bf js e this h params cb in
  (requestFactory_calls (snd r) = 0 /\ fst r = h)
  \/ (exists p cb',
        snd r = Returned_requestFactory p cb'
        /\ defaultOptions p = _options this
        /\ fst r = <[_options this :=
                      extend_deep (obj_at h (_options this)) (headers_literal e)]> h).
Proof.
  intros r. destruct r as [h' o] eqn:E. simpl.
  destruct o as [c err|p cb'|err].
  - left. split; [done |]. pose proof (invoke_store e this h params cb) as H.
    fold r in H. rewrite E in H. by apply H.
  - right. exists p, cb'. split; [done |].
    destruct (invoke_requestFactory _ _ _ _ _ _ _ _ E) as (params' & cb0 & Hs).
    apply send_requestFactory in Hs. tauto.
  - left. split; [done |]. pose proof (invoke_store e this h params cb) as H.
    fold r in H. rewrite E in H. by apply H.
Qed.

Lemma obj_at_insert (h : store) l o : obj_at (<[l := o]> h) l = o.
Proof. unfold obj_at. by rewrite lookup_insert_eq. Qed.

(** Outside [headers], [this._options] is as before a call. *)
Lemma invoke_frame e this h params cb k :
  k <> "headers" ->
  assoc k (obj_at (fst (invoke bf js e this h params cb)) (_options this))
  = assoc k (obj_at h (_options this)).
Proof.
  intros Hk.
  destruct (invoke_cases e this h params cb) as [[_ ->] | (p & cb' & _ & _ & ->)]; [done |].
  rewrite obj_at_insert, extend_deep_headers. by apply assoc_set_ne.
Qed.

(** ** Facts about the table *)

Lemma required_nonempty b required :
  requiredParams (endpoint_of b) = Some required -> required <> [].
Proof. destruct b as [[]|[]]; simpl; intros [= <-]; discriminate. Qed.

(** Every method with required parameters reads a property of [params]
    before anything else happens. *)
Lemma build_options_nullish b required params :
  requiredParams (endpoint_of b) = Some required ->
  nullish params = true ->
  build_options bf js (endpoint_of b) params = Throw TypeError.
Proof.
  intros Hreq Hp.
  destruct params; try discriminate Hp;
    destruct b as [[]|[]]; try discriminate Hreq; reflexivity.
Qed.

Lemma validateRequired_nothing required :
  validateRequired (VObj []) required = required.
Proof.
  unfold validateRequired. induction required as [|r rest IH]; simpl; [done |].
  f_equal. exact IH.
Qed.

Lemma getMissingParams_truthy params required :
  validateRequired params required <> [] ->
  getMissingParams params required = MissingParamsError (validateRequired params required).
Proof. unfold getMissingParams. by destruct (validateRequired params required). Qed.

(** ** The claims *)

(** C2: for every method with required parameters, when a callback is
    supplied and validation finds parameters missing, the method returns
    [callback(err)]: the callback is called once, with a non-null error
    that lists the missing names, the store is untouched and
    [requestFactory] is not called. *)
Theorem C2_missing_params_go_to_callback b required this h params f fname :
  requiredParams (endpoint_of b) = Some required ->
  validateRequired (or_else params (VObj [])) required <> [] ->
  call bf js b this h params (VFun f fname)
  = (h, Returned_callback (VFun f fname)
          (MissingParamsError (validateRequired (or_else params (VObj [])) required)))
  /\ callback_calls (snd (call bf js b this h params (VFun f fname))) = 1
  /\ requestFactory_calls (snd (call bf js b this h params (VFun f fname))) = 0
  /\ MissingParamsError (validateRequired (or_else params (VObj [])) required) <> VNull
  /\ prop (MissingParamsError (validateRequired (or_else params (VObj [])) required)) "missing"
     = VArr (map VStr (validateRequired (or_else params (VObj [])) required)).
Proof.
  intros Hreq Hmiss.
  assert (call bf js b this h params (VFun f fname)
          = (h, Returned_callback (VFun f fname)
                  (MissingParamsError (validateRequired (or_else params (VObj [])) required)))) as Hcall.
  { unfold call, invoke. rewrite Hreq.
    by rewrite (getMissingParams_truthy _ _ Hmiss). }
  rewrite Hcall. by repeat split.
Qed.

(** C3 (amended): for every method with required parameters, when the
    callback is omitted, [params] is neither [null] nor [undefined] and
    [JSON.stringify] returns on the optional form parts it is called on,
    a validation failure does not short-circuit the call: no error is
    reported through any callback and none is thrown, the request
    descriptor is built and [requestFactory] is invoked with it and no
    callback; the method returns the stream that [requestFactory]
    returns, the only place where the error can be observed. *)
Theorem C3_without_callback_request_is_sent b required this h params :
  requiredParams (endpoint_of b) = Some required ->
  nullish params = false ->
  stringifies js (endpoint_of b) params ->
  validateRequired (or_else params (VObj [])) required <> [] ->
  exists opts,
    build_options bf js (endpoint_of b) params = Normal opts
    /\ snd (call bf js b this h params VUndefined)
       = Returned_requestFactory {| options := opts; defaultOptions := _options this |} VUndefined
    /\ callback_calls (snd (call bf js b this h params VUndefined)) = 0
    /\ requestFactory_calls (snd (call bf js b this h params VUndefined)) = 1
    /\ (forall e, snd (call bf js b this h params VUndefined) <> Thrown e).
Proof.
  intros Hreq Hp Hjs _.
  destruct (send_defined (endpoint_of b) this h params VUndefined Hp Hjs)
    as (opts & Hopts & Hsend).
  exists opts. split; [done |].
  assert (call bf js b this h params VUndefined
          = send bf js (endpoint_of b) this h params VUndefined) as ->.
  { unfold call, invoke. rewrite Hreq. simpl. by rewrite andb_false_r. }
  rewrite Hsend. by repeat split.
Qed.

(** C10: for every method with required parameters, a call with [params]
    null or undefined and no callback throws a TypeError: validation did
    find every required name missing, the guard does not fire without a
    callback, and the first property read of [params] throws; no callback
    is called, [requestFactory] is not called and nothing is returned. *)
Theorem C10_nullish_params_without_callback_throw b required this h params callback :
  requiredParams (endpoint_of b) = Some required ->
  nullish params = true ->
  truthy callback = false ->
  call bf js b this h params callback = (h, Thrown TypeError)
  /\ validateRequired (or_else params (VObj [])) required = required
  /\ required <> []
  /\ truthy (getMissingParams (or_else params (VObj [])) required) = true
  /\ callback_calls (snd (call bf js b this h params callback)) = 0
  /\ requestFactory_calls (snd (call bf js b this h params callback)) = 0.
Proof.
  intros Hreq Hp Hcb.
  assert (or_else params (VObj []) = VObj []) as Hor by (by destruct params).
  assert (call bf js b this h params callback = (h, Thrown TypeError)) as Hcall.
  { unfold call, invoke. rewrite Hreq, Hcb, andb_false_r.
    unfold send. by rewrite (build_options_nullish b required params Hreq Hp). }
  rewrite Hcall, Hor, validateRequired_nothing.
  pose proof (required_nonempty b required Hreq) as Hne.
  repeat split; try done.
  rewrite getMissingParams_truthy by (by rewrite validateRequired_nothing).
  reflexivity.
Qed.

(** C8: a method whose parameters are all optional ([listModels],
    [listIdentifiableLanguages], [listEnvironments]), called with a
    function [f] alone, does what it does when called with [({}, f)]:
    [f] becomes the callback and the parameter bag is empty. *)
Theorem C8_callback_as_first_argument b this h f fname :
  requiredParams (endpoint_of b) = None ->
  call bf js b this h (VFun f fname) VUndefined
  = call bf js b this h (VObj []) (VFun f fname)
  /\ call bf js b this h (VFun f fname) VUndefined
     = send bf js (endpoint_of b) this h (VObj []) (VFun f fname)
  /\ (b = LanguageTranslator LanguageTranslatorV2.listModels
      \/ b = LanguageTranslator LanguageTranslatorV2.listIdentifiableLanguages
      \/ b = Discovery DiscoveryV1.listEnvironments).
Proof.
  intros Hreq. unfold call, invoke. rewrite Hreq. simpl.
  repeat split. destruct b as [[]|[]]; try discriminate Hreq; tauto.
Qed.

Lemma options_keys_exclusive b : exclusive (options_keys (endpoint_of b)) = true.
Proof. by destruct b as [[]|[]]. Qed.

Lemma existsb_eqb k keys : existsb (String.eqb k) keys = true <-> In k keys.
Proof.
  rewrite existsb_exists. split.
  - intros (x & Hin & Heq). apply String.eqb_eq in Heq. by subst.
  - intros Hin. exists k. split; [done | apply String.eqb_refl].
Qed.

(** C5: for every method of both clients, the request descriptor handed
    to [requestFactory] never has both a [body] and a [formData]; a
    descriptor with a [body] has [json: true]. *)
Theorem C5_body_and_formData_exclusive b this h params callback p cb :
  snd (call bf js b this h params callback) = Returned_requestFactory p cb ->
  ~ (In "body" (own_keys (options p)) /\ In "formData" (own_keys (options p)))
  /\ (In "body" (own_keys (options p)) -> prop (options p) "json" = VBool true).
Proof.
  intros Hcall.
  destruct (call bf js b this h params callback) as [h' o] eqn:E. simpl in Hcall. subst o.
  destruct (invoke_requestFactory _ _ _ _ _ _ _ _ E) as (params' & cb0 & Hsend).
  apply send_requestFactory in Hsend. destruct Hsend as (Hbuild & _).
  apply build_options_shape in Hbuild.
  destruct Hbuild as (Hkeys & _ & _ & Hjson & _).
  rewrite Hkeys, Hjson.
  pose proof (options_keys_exclusive b) as Hex. unfold exclusive in Hex.
  apply andb_true_iff in Hex. destruct Hex as [Hex1 Hex2].
  apply negb_true_iff, andb_false_iff in Hex1.
  split.
  - intros [Hb Hf]. apply existsb_eqb in Hb, Hf. destruct Hex1; congruence.
  - intros Hb. apply existsb_eqb in Hb. rewrite Hb in Hex2. cbn [implb] in Hex2.
    apply existsb_eqb in Hex2. unfold options_keys in Hex2.
    destruct (json (endpoint_of b)); [done |]. exfalso.
    destruct (body (endpoint_of b)), (qs (endpoint_of b)), (path (endpoint_of b)),
      (formData (endpoint_of b)); simpl in Hex2; intuition discriminate.
Qed.

Lemma placeholders_path b :
  placeholders (url (endpoint_of b))
  = match path (endpoint_of b) with Some fs => map fst fs | None => [] end.
Proof. by destruct b as [[]|[]]. Qed.

(** C6: for every method of both clients, the placeholders of the URL
    template of the descriptor are exactly the keys of the [path] object
    of the descriptor, in the same order: every placeholder has its key. *)
Theorem C6_placeholders_have_path_keys b this h params callback p cb :
  snd (call bf js b this h params callback) = Returned_requestFactory p cb ->
  url_placeholders (options p) = own_keys (prop (options p) "path")
  /\ (forall key, In key (url_placeholders (options p)) ->
                  In key (own_keys (prop (options p) "path"))).
Proof.
  intros Hcall.
  destruct (call bf js b this h params callback) as [h' o] eqn:E. simpl in Hcall. subst o.
  destruct (invoke_requestFactory _ _ _ _ _ _ _ _ E) as (params' & cb0 & Hsend).
  apply send_requestFactory in Hsend. destruct Hsend as (Hbuild & _).
  apply build_options_shape in Hbuild.
  destruct Hbuild as (_ & Hurl & _ & _ & Hpath & _).
  assert (url_placeholders (options p) = own_keys (prop (options p) "path")) as Heq.
  { unfold url_placeholders. rewrite Hurl, Hpath. apply placeholders_path. }
  split; [done |]. intros key. by rewrite Heq.
Qed.

Lemma headers_names b :
  map fst (headers (endpoint_of b)) = ["accept"]
  \/ map fst (headers (endpoint_of b)) = ["accept"; "content-type"].
Proof. destruct b as [[]|[]]; simpl; tauto. Qed.

Lemma headers_nodup b : List.NoDup (map fst (headers (endpoint_of b))).
Proof.
  destruct (headers_names b) as [-> | ->]; repeat constructor; simpl; intuition discriminate.
Qed.

Lemma invoke_reached e this h params callback p cb :
  snd (invoke bf js e this h params callback) = Returned_requestFactory p cb ->
  defaultOptions p = _options this
  /\ fst (invoke bf js e this h params callback)
     = <[_options this := extend_deep (obj_at h (_options this)) (headers_literal e)]> h.
Proof.
  intros H.
  destruct (invoke_cases e this h params callback) as [[H0 _] | (p' & cb' & Ho & Hd & Hs)].
  - rewrite H in H0. discriminate.
  - rewrite H in Ho. injection Ho as <- <-. by split.
Qed.

(** After a call that reached [requestFactory], the [headers] of
    [this._options] hold the headers of the method. *)
Lemma call_headers_set b this h params callback p cb name v :
  snd (call bf js b this h params callback) = Returned_requestFactory p cb ->
  In (name, v) (headers (endpoint_of b)) ->
  prop (assoc "headers" (obj_at (fst (call bf js b this h params callback)) (_options this)))
       name
  = VStr v.
Proof.
  unfold call. intros H Hin. apply invoke_reached in H. destruct H as [_ ->].
  rewrite obj_at_insert, extend_deep_headers, assoc_set_eq. simpl.
  apply extend_deep_strings_set; [apply headers_nodup | done].
Qed.

(** C1 (amended): a call merges the headers of the method into the
    stored defaults themselves.  A call that ends in the callback or
    throws leaves the store as it was.  A call that reaches
    [requestFactory] passes the object [_options] of the client as
    [defaultOptions]; in that object the entry [headers] then holds the
    headers of the method, over the entries the [headers] had before
    when that was a plain object; every other entry of [_options], and
    every other object of the store, is unchanged. *)
Theorem C1_headers_merged_into_stored_defaults b this h params callback :
  (requestFactory_calls (snd (call bf js b this h params callback)) = 0 ->
   fst (call bf js b this h params callback) = h)
  /\ (forall p cb,
        snd (call bf js b this h params callback) = Returned_requestFactory p cb ->
        defaultOptions p = _options this
        /\ (forall name v,
              In (name, v) (headers (endpoint_of b)) ->
              prop (assoc "headers"
                      (obj_at (fst (call bf js b this h params callback)) (_options this)))
                   name
              = VStr v)
        /\ (forall name,
              ~ In name (map fst (headers (endpoint_of b))) ->
              prop (assoc "headers"
                      (obj_at (fst (call bf js b this h params callback)) (_options this)))
                   name
              = assoc name (plain_object (assoc "headers" (obj_at h (_options this))))))
  /\ (forall k,
        k <> "headers" ->
        assoc k (obj_at (fst (call bf js b this h params callback)) (_options this))
        = assoc k (obj_at h (_options this)))
  /\ (forall l,
        l <> _options this ->
        fst (call bf js b this h params callback) !! l = h !! l).
Proof.
  split; [apply invoke_store |]. split; [| split].
  - intros p cb H. split; [| split].
    + unfold call in H. apply invoke_reached in H. tauto.
    + intros name v Hin. by eapply call_headers_set.
    + intros name Hn. unfold call in *. apply invoke_reached in H. destruct H as [_ ->].
      rewrite obj_at_insert, extend_deep_headers, assoc_set_eq. simpl.
      by apply extend_deep_strings_other.
  - intros k Hk. by apply invoke_frame.
  - intros l Hl. unfold call.
    destruct (invoke_cases (endpoint_of b) this h params callback)
      as [[_ ->] | (p' & cb' & _ & _ & ->)]; [done |].
    by rewrite lookup_insert_ne.
Qed.

(** C4 (the defect): [identify], called with a text that is not empty,
    sends [json: true] with the body [{ text: params.text }] while the
    headers it merges set [content-type] to [text/plain]. *)
Theorem C4_identify_json_body_with_text_plain this h c text cb :
  snd (call bf js (LanguageTranslator LanguageTranslatorV2.identify) this h
         (VObj [("text", VStr (String c text))]) cb)
  = Returned_requestFactory
      {| options := VObj [("url", VStr "/v2/identify"); ("method", VStr "POST");
                          ("json", VBool true);
                          ("body", VObj [("text", VStr (String c text))])];
         defaultOptions := _options this |} cb
  /\ prop (assoc "headers"
             (obj_at (fst (call bf js (LanguageTranslator LanguageTranslatorV2.identify)
                             this h (VObj [("text", VStr (String c text))]) cb))
                     (_options this)))
          "content-type"
     = VStr "text/plain".
Proof.
  split; [reflexivity |].
  eapply call_headers_set; [reflexivity | right; left; reflexivity].
Qed.

(** The methods with a JSON body other than [identify] do merge
    [content-type: application/json]. *)
Lemma json_headers b :
  json (endpoint_of b) = true ->
  b <> LanguageTranslator LanguageTranslatorV2.identify ->
  In ("content-type", "application/json") (headers (endpoint_of b)).
Proof.
  destruct b as [[]|[]]; simpl; intros Hj Hb; try discriminate Hj; try tauto.
Qed.

Theorem json_body_content_type b this h params callback p cb :
  json (endpoint_of b) = true ->
  b <> LanguageTranslator LanguageTranslatorV2.identify ->
  snd (call bf js b this h params callback) = Returned_requestFactory p cb ->
  prop (options p) "json" = VBool true
  /\ prop (assoc "headers"
             (obj_at (fst (call bf js b this h params callback)) (_options this)))
          "content-type"
     = VStr "application/json".
Proof.
  intros Hj Hb Hcall. split.
  - destruct (call bf js b this h params callback) as [h' o] eqn:E. simpl in Hcall. subst o.
    destruct (invoke_requestFactory _ _ _ _ _ _ _ _ E) as (params' & cb0 & Hsend).
    apply send_requestFactory in Hsend. destruct Hsend as (Hbuild & _).
    apply build_options_shape in Hbuild.
    destruct Hbuild as (_ & _ & _ & Hjson & _). by rewrite Hjson, Hj.
  - eapply call_headers_set; [done |]. by apply json_headers.
Qed.

(** ** The constructor of DiscoveryV1 *)

Lemma typeof_undefined v : typeof v = "undefined" <-> v = VUndefined.
Proof. by destruct v. Qed.

(** Calls leave the [qs] of [this._options] alone and pass
    [this._options] on. *)
Lemma run_keeps this calls k x :
  k <> "headers" ->
  forall h,
    assoc k (obj_at h (_options this)) = x ->
    Forall (fun r =>
              assoc k (obj_at (fst r) (_options this)) = x
              /\ forall p cb, snd r = Returned_requestFactory p cb ->
                              defaultOptions p = _options this)
           (run bf js this h calls).
Proof.
  intros Hk. induction calls as [|c rest IH]; intros h Hx; simpl; constructor.
  - split.
    + unfold call. by rewrite invoke_frame.
    + intros p cb H. unfold call in H. apply invoke_reached in H. tauto.
  - apply IH. unfold call. by rewrite invoke_frame.
Qed.

(** C9 (amended): after [super(options)] has set [this._options], the
    constructor throws its own Error exactly when
    [typeof this._options.version_date] is ['undefined'].  With a
    [version_date] there, it throws a TypeError instead when [options] or
    [this._options.qs] is [null] or [undefined]; when [options] is neither
    and [this._options.qs] is a plain object, it succeeds and stores
    [options.version_date] as [this._options.qs.version], where every
    later call finds it: each call leaves it in place and passes
    [this._options] as [defaultOptions]. *)
Theorem C9_version_date_required_and_recorded
    (BaseService : value -> store -> completion (service * store)) opts h this h1 :
  BaseService opts h = Normal (this, h1) ->
  (DiscoveryV1.constructor BaseService opts h = Throw (Error DiscoveryV1.version_date_error)
   <-> typeof (assoc "version_date" (obj_at h1 (_options this))) = "undefined")
  /\ (typeof (assoc "version_date" (obj_at h1 (_options this))) <> "undefined" ->
      nullish opts = false ->
      forall q,
        assoc "qs" (obj_at h1 (_options this)) = VObj q ->
        exists h2,
          DiscoveryV1.constructor BaseService opts h = Normal (this, h2)
          /\ prop (assoc "qs" (obj_at h2 (_options this))) "version"
             = prop opts "version_date"
          /\ forall calls,
               Forall (fun r =>
                         prop (assoc "qs" (obj_at (fst r) (_options this))) "version"
                         = prop opts "version_date"
                         /\ forall p cb, snd r = Returned_requestFactory p cb ->
                                         defaultOptions p = _options this)
                      (run bf js this h2 calls))
  /\ (typeof (assoc "version_date" (obj_at h1 (_options this))) <> "undefined" ->
      nullish opts = true \/ nullish (assoc "qs" (obj_at h1 (_options this))) = true ->
      DiscoveryV1.constructor BaseService opts h = Throw TypeError).
Proof.
  intros Hsuper. unfold DiscoveryV1.constructor. rewrite Hsuper. cbn [bind fst snd].
  split; [| split].
  - destruct (String.eqb _ "undefined") eqn:E.
    + apply String.eqb_eq in E. by split.
    + apply String.eqb_neq in E. split; [|done].
      unfold get. destruct (nullish opts); cbn [bind]; [done |].
      by destruct (assoc "qs" (obj_at h1 (_options this))).
  - intros Hdefined Hopts q Hqs.
    apply String.eqb_neq in Hdefined. rewrite Hdefined.
    rewrite get_defined by done. cbn [bind]. rewrite Hqs. cbn [set bind].
    eexists. split; [reflexivity |].
    assert (prop (assoc "qs" (obj_at (<[_options this :=
              assoc_set "qs" (VObj (assoc_set "version" (prop opts "version_date") q))
                (obj_at h1 (_options this))]> h1) (_options this))) "version"
            = prop opts "version_date") as Hversion.
    { rewrite obj_at_insert, assoc_set_eq. apply assoc_set_eq. }
    split; [exact Hversion |].
    intros calls.
    eapply Forall_impl;
      [apply (run_keeps this calls "qs" _ ltac:(done) _ eq_refl) |].
    intros r [Hr Hd]. split; [|exact Hd].
    rewrite Hr. rewrite obj_at_insert, assoc_set_eq. apply assoc_set_eq.
  - intros Hdefined Hnull.
    apply String.eqb_neq in Hdefined. rewrite Hdefined.
    unfold get. destruct (nullish opts); cbn [bind]; [done |].
    destruct Hnull as [Hnull | Hnull]; [done |].
    by destruct (assoc "qs" (obj_at h1 (_options this))).
Qed.

End Building.

(** ** The validation of required parameters *)

Lemma filter_sublist {A : Type} (f : A -> bool) (l : list A) : sublist (List.filter f l) l.
Proof.
  induction l as [|x rest IH]; simpl; [constructor |].
  destruct (f x); by constructor.
Qed.

(** C7 (amended): the validation step of every method,
    [helper.getMissingParams(P || {}, R)], reports exactly the names of
    [R] whose value in [P] is falsy, in the order of [R]: a name that [P]
    does not have, a name whose value is [undefined] or [null], and also
    a name whose value is [''], [0] or [false]; a name with a truthy
    value is never reported; when [P] itself is falsy every name of [R]
    is reported; the result is [null] when nothing is reported and the
    error with the list otherwise. *)
Theorem C7_missing_is_falsy (P : value) (R : list string) :
  (forall name,
      In name (validateRequired (or_else P (VObj [])) R)
      <-> In name R /\ truthy (prop (or_else P (VObj [])) name) = false)
  /\ sublist (validateRequired (or_else P (VObj [])) R) R
  /\ (forall fields name,
        or_else P (VObj []) = VObj fields ->
        In name R -> ~ In name (map fst fields) ->
        In name (validateRequired (or_else P (VObj [])) R))
  /\ (forall name,
        In name R ->
        prop (or_else P (VObj [])) name = VUndefined
        \/ prop (or_else P (VObj [])) name = VNull
        \/ prop (or_else P (VObj [])) name = VStr ""
        \/ prop (or_else P (VObj [])) name = VNum 0
        \/ prop (or_else P (VObj [])) name = VBool false ->
        In name (validateRequired (or_else P (VObj [])) R))
  /\ (forall name,
        truthy (prop (or_else P (VObj [])) name) = true ->
        ~ In name (validateRequired (or_else P (VObj [])) R))
  /\ (truthy P = false -> validateRequired (or_else P (VObj [])) R = R)
  /\ (getMissingParams (or_else P (VObj [])) R = VNull
      <-> validateRequired (or_else P (VObj [])) R = [])
  /\ (validateRequired (or_else P (VObj [])) R <> [] ->
      getMissingParams (or_else P (VObj [])) R
      = MissingParamsError (validateRequired (or_else P (VObj [])) R)).
Proof.
  assert (forall name,
             In name (validateRequired (or_else P (VObj [])) R)
             <-> In name R /\ truthy (prop (or_else P (VObj [])) name) = false) as Hin.
  { intros name. unfold validateRequired. rewrite filter_In.
    by rewrite negb_true_iff. }
  split; [exact Hin |]. split; [apply filter_sublist |].
  split; [| split; [| split; [| split; [| split]]]].
  - intros fields name HQ HR Hkey. apply Hin. split; [done |].
    rewrite HQ. cbn [prop]. by rewrite assoc_not_key.
  - intros name HR Hfalsy. apply Hin. split; [done |].
    by destruct Hfalsy as [-> | [-> | [-> | [-> | ->]]]].
  - intros name Htruthy Hmiss. apply Hin in Hmiss. destruct Hmiss as [_ Hn]. congruence.
  - intros HP. unfold or_else. rewrite HP. apply validateRequired_nothing.
  - unfold getMissingParams. destruct (validateRequired _ R); [done |].
    split; discriminate.
  - intros Hne. unfold getMissingParams. by destruct (validateRequired _ R).
Qed.

(** ** The claims on concrete calls *)

(** [translate({text: 'hello'})] on a fresh client reaches
    [requestFactory] with the stored [_options] object itself as
    [defaultOptions], and that object has changed: it now has [headers]. *)
Lemma C1_translate_changes_stored_options :
  snd (call' translate' translator translator_store (VObj [("text", VStr "hello")]) VUndefined)
  = Returned_requestFactory
      {| options := VObj [("url", VStr "/v2/translate"); ("method", VStr "POST");
                          ("json", VBool true);
                          ("body", VObj [("text", VStr "hello"); ("model_id", VUndefined);
                                         ("source", VUndefined); ("target", VUndefined)])];
         defaultOptions := _options translator |} VUndefined
  /\ assoc "headers" (obj_at translator_store (_options translator)) = VUndefined
  /\ assoc "headers"
       (obj_at (fst (call' translate' translator translator_store
                       (VObj [("text", VStr "hello")]) VUndefined))
               (_options translator))
     = VObj [("accept", VStr "application/json"); ("content-type", VStr "application/json")]
  /\ fst (call' translate' translator translator_store (VObj [("text", VStr "hello")]) VUndefined)
     <> translator_store.
Proof.
  split; [reflexivity |]. split; [reflexivity |].
  assert (assoc "headers"
            (obj_at (fst (call' translate' translator translator_store
                            (VObj [("text", VStr "hello")]) VUndefined))
                    (_options translator))
          = VObj [("accept", VStr "application/json");
                  ("content-type", VStr "application/json")]) as H by (by vm_compute).
  split; [exact H |].
  intros Heq. rewrite Heq in H. vm_compute in H. discriminate H.
Qed.

(** [translate({text: ''}, cb)]: the [text] is there, it is the empty
    string, and it is reported as missing: the call ends in the callback. *)
Lemma C7_empty_text_is_reported :
  prop (or_else (VObj [("text", VStr "")]) (VObj [])) "text" = VStr ""
  /\ In "text" (validateRequired (or_else (VObj [("text", VStr "")]) (VObj [])) ["text"])
  /\ getMissingParams (or_else (VObj [("text", VStr "")]) (VObj [])) ["text"]
     = MissingParamsError ["text"]
  /\ call' translate' translator translator_store (VObj [("text", VStr "")]) (VFun 1 "cb")
     = (translator_store, Returned_callback (VFun 1 "cb") (MissingParamsError ["text"])).
Proof.
  repeat split. simpl. tauto.
Qed.

(** [translate({}, cb)]: the example of C2. *)
Lemma C2_at_translate_without_text :
  call' translate' translator translator_store (VObj []) (VFun 1 "cb")
  = (translator_store, Returned_callback (VFun 1 "cb") (MissingParamsError ["text"]))
  /\ callback_calls
       (snd (call' translate' translator translator_store (VObj []) (VFun 1 "cb"))) = 1
  /\ requestFactory_calls
       (snd (call' translate' translator translator_store (VObj []) (VFun 1 "cb"))) = 0
  /\ MissingParamsError ["text"] <> VNull
  /\ prop (MissingParamsError ["text"]) "missing" = VArr [VStr "text"].
Proof.
  apply (C2_missing_params_go_to_callback part_of_description serialized_empty
           translate' ["text"] translator translator_store (VObj []) 1 "cb").
  - reflexivity.
  - discriminate.
Defined.

(** [translate({})] without a callback. *)
Lemma C3_at_translate_without_text :
  exists opts,
    build_options part_of_description serialized_empty (endpoint_of translate') (VObj [])
    = Normal opts
    /\ snd (call' translate' translator translator_store (VObj []) VUndefined)
       = Returned_requestFactory
           {| options := opts; defaultOptions := _options translator |} VUndefined
    /\ callback_calls
         (snd (call' translate' translator translator_store (VObj []) VUndefined)) = 0
    /\ requestFactory_calls
         (snd (call' translate' translator translator_store (VObj []) VUndefined)) = 1
    /\ (forall e,
          snd (call' translate' translator translator_store (VObj []) VUndefined)
          <> Thrown e).
Proof.
  apply (C3_without_callback_request_is_sent part_of_description serialized_empty
           translate' ["text"] translator translator_store (VObj [])).
  - reflexivity.
  - reflexivity.
  - intros k [].
  - discriminate.
Defined.

(** Two calls without a callback in which validation fails and yet
    [requestFactory] is not called, because the call throws:
    [translate(null)], at the first read of [params], and
    [addDocument({metadata: {toJSON() { throw new TypeError(); }}})],
    where [JSON.stringify] throws on the metadata. *)
Lemma C3_requests_that_are_not_sent :
  (requiredParams (endpoint_of translate') = Some ["text"]
   /\ validateRequired (or_else VNull (VObj [])) ["text"] = ["text"]
   /\ call' translate' translator translator_store VNull VUndefined
      = (translator_store, Thrown TypeError)
   /\ ~ (exists p,
           snd (call' translate' translator translator_store VNull VUndefined)
           = Returned_requestFactory p VUndefined))
  /\ (requiredParams (endpoint_of addDocument') = Some ["environment_id"; "collection_id"]
      /\ nullish (VObj [("metadata", VObj [("toJSON", VFun 2 "toJSON")])]) = false
      /\ validateRequired (or_else (VObj [("metadata", VObj [("toJSON", VFun 2 "toJSON")])])
                                   (VObj []))
           ["environment_id"; "collection_id"]
         = ["environment_id"; "collection_id"]
      /\ call part_of_description stringify_throws addDocument' discovery discovery_store
           (VObj [("metadata", VObj [("toJSON", VFun 2 "toJSON")])]) VUndefined
         = (discovery_store, Thrown TypeError)
      /\ ~ (exists p,
              snd (call part_of_description stringify_throws addDocument' discovery
                     discovery_store (VObj [("metadata", VObj [("toJSON", VFun 2 "toJSON")])])
                     VUndefined)
              = Returned_requestFactory p VUndefined)).
Proof.
  split; repeat split; intros [p Hp]; discriminate Hp.
Qed.

Lemma C10_at_translate_null :
  call' translate' translator translator_store VNull VUndefined
  = (translator_store, Thrown TypeError)
  /\ validateRequired (or_else VNull (VObj [])) ["text"] = ["text"]
  /\ ["text"] <> []
  /\ truthy (getMissingParams (or_else VNull (VObj [])) ["text"]) = true
  /\ callback_calls (snd (call' translate' translator translator_store VNull VUndefined)) = 0
  /\ requestFactory_calls
       (snd (call' translate' translator translator_store VNull VUndefined)) = 0.
Proof.
  apply (C10_nullish_params_without_callback_throw part_of_description serialized_empty
           translate' ["text"] translator translator_store VNull VUndefined);
    reflexivity.
Defined.

Lemma C8_at_listModels :
  call' (LanguageTranslator LanguageTranslatorV2.listModels) translator translator_store
    (VFun 1 "cb") VUndefined
  = call' (LanguageTranslator LanguageTranslatorV2.listModels) translator translator_store
      (VObj []) (VFun 1 "cb")
  /\ call' (LanguageTranslator LanguageTranslatorV2.listModels) translator translator_store
       (VFun 1 "cb") VUndefined
     = send part_of_description serialized_empty
         (endpoint_of (LanguageTranslator LanguageTranslatorV2.listModels))
         translator translator_store (VObj []) (VFun 1 "cb")
  /\ (LanguageTranslator LanguageTranslatorV2.listModels
      = LanguageTranslator LanguageTranslatorV2.listModels
      \/ LanguageTranslator LanguageTranslatorV2.listModels
         = LanguageTranslator LanguageTranslatorV2.listIdentifiableLanguages
      \/ LanguageTranslator LanguageTranslatorV2.listModels
         = Discovery DiscoveryV1.listEnvironments).
Proof.
  apply (C8_callback_as_first_argument part_of_description serialized_empty
           (LanguageTranslator LanguageTranslatorV2.listModels)
           translator translator_store 1 "cb").
  reflexivity.
Defined.

(** [addDocument] sends [formData] and no [body]. *)
Lemma C5_at_addDocument :
  ~ (In "body"
       (own_keys
          (VObj [("url",
                  VStr "/v1/environments/{environment_id}/collections/{collection_id}/documents");
                 ("method", VStr "POST");
                 ("path", VObj [("environment_id", VStr "env"); ("collection_id", VStr "col")]);
                 ("formData",
                  VObj [("file", VObj [("data", VUndefined); ("contentType", VUndefined)]);
                        ("metadata", VStr "{}")])]))
     /\ In "formData"
          (own_keys
             (VObj [("url",
                     VStr "/v1/environments/{environment_id}/collections/{collection_id}/documents");
                    ("method", VStr "POST");
                    ("path", VObj [("environment_id", VStr "env"); ("collection_id", VStr "col")]);
                    ("formData",
                     VObj [("file", VObj [("data", VUndefined); ("contentType", VUndefined)]);
                           ("metadata", VStr "{}")])]))).
Proof.
  apply (C5_body_and_formData_exclusive part_of_description serialized_empty
           addDocument' discovery discovery_store document_params VUndefined
           {| options :=
                VObj [("url",
                       VStr "/v1/environments/{environment_id}/collections/{collection_id}/documents");
                      ("method", VStr "POST");
                      ("path", VObj [("environment_id", VStr "env");
                                     ("collection_id", VStr "col")]);
                      ("formData",
                       VObj [("file", VObj [("data", VUndefined); ("contentType", VUndefined)]);
                             ("metadata", VStr "{}")])];
              defaultOptions := 0 |} VUndefined).
  reflexivity.
Defined.

(** [deleteDocument]: the example of C6. *)
Lemma C6_at_deleteDocument :
  url_placeholders
    (VObj [("url",
            VStr "/v1/environments/{environment_id}/collections/{collection_id}/documents/{document_id}");
           ("method", VStr "DELETE");
           ("path", VObj [("environment_id", VStr "env"); ("collection_id", VStr "col");
                          ("document_id", VStr "doc")])])
  = ["environment_id"; "collection_id"; "document_id"].
Proof.
  apply (C6_placeholders_have_path_keys part_of_description serialized_empty
           deleteDocument' discovery discovery_store document_params VUndefined
           {| options :=
                VObj [("url",
                       VStr "/v1/environments/{environment_id}/collections/{collection_id}/documents/{document_id}");
                      ("method", VStr "DELETE");
                      ("path", VObj [("environment_id", VStr "env");
                                     ("collection_id", VStr "col");
                                     ("document_id", VStr "doc")])];
              defaultOptions := 0 |} VUndefined).
  reflexivity.
Defined.

(** With a [BaseService] that sets no [qs], constructing a client with
    [version_date: '2017-09-01'] throws although the resolved options
    carry the [version_date]: a TypeError, not the Error of the
    constructor. *)
Lemma C9_throws_with_a_version_date :
  copy_options_without_qs discovery_options ∅
  = Normal (discovery, <[0 := plain_object discovery_options]> ∅)
  /\ typeof (assoc "version_date"
               (obj_at (<[0 := plain_object discovery_options]> ∅) (_options discovery)))
     = "string"
  /\ DiscoveryV1.constructor copy_options_without_qs discovery_options ∅ = Throw TypeError.
Proof. by repeat split. Qed.

(** Constructing a client with [version_date: '2017-09-01'] succeeds and
    records the date as [qs.version]; without a [version_date] the
    constructor throws. *)
Lemma C9_at_2017_09_01 :
  (exists h2,
      DiscoveryV1.constructor copy_options discovery_options ∅ = Normal (discovery, h2)
      /\ prop (assoc "qs" (obj_at h2 (_options discovery))) "version" = VStr "2017-09-01")
  /\ DiscoveryV1.constructor copy_options (VObj [("username", VStr "user")]) ∅
     = Throw (Error DiscoveryV1.version_date_error).
Proof.
  split.
  - destruct (C9_version_date_required_and_recorded part_of_description serialized_empty
                copy_options discovery_options ∅ discovery
                (<[0 := assoc_set "qs" (VObj []) (plain_object discovery_options)]> ∅)
                eq_refl) as (_ & Hok & _).
    destruct (Hok ltac:(discriminate) eq_refl [] eq_refl) as (h2 & Hctor & Hversion & _).
    exists h2. split; [exact Hctor | exact Hversion].
  - destruct (C9_version_date_required_and_recorded part_of_description serialized_empty
                copy_options (VObj [("username", VStr "user")]) ∅ discovery
                (<[0 := assoc_set "qs" (VObj []) (plain_object (VObj [("username", VStr "user")]))]> ∅)
                eq_refl) as ([_ Hthrow] & _).
    apply Hthrow. reflexivity.
Defined.

(** [createEnvironment] sends a JSON body as [application/json]. *)
Lemma json_body_content_type_at_createEnvironment :
  prop (VObj [("url", VStr "/v1/environments"); ("method", VStr "POST");
              ("json", VBool true);
              ("body", VObj [("name", VStr "env"); ("description", VUndefined);
                             ("size", VUndefined)])]) "json"
  = VBool true
  /\ prop (assoc "headers"
             (obj_at (fst (call' (Discovery DiscoveryV1.createEnvironment) discovery
                             discovery_store (VObj [("name", VStr "env")]) VUndefined))
                     (_options discovery)))
          "content-type"
     = VStr "application/json".
Proof.
  apply (json_body_content_type part_of_description serialized_empty
           (Discovery DiscoveryV1.createEnvironment) discovery discovery_store
           (VObj [("name", VStr "env")]) VUndefined
           {| options :=
                VObj [("url", VStr "/v1/environments"); ("method", VStr "POST");
                      ("json", VBool true);
                      ("body", VObj [("name", VStr "env"); ("description", VUndefined);
                                     ("size", VUndefined)])];
              defaultOptions := 0 |} VUndefined).
  - reflexivity.
  - discriminate.
  - reflexivity.
Defined.

(** What one call merged stays for the next: after [createModel], a
    [deleteModel] on the same client passes defaults whose [content-type]
    is still [multipart/form-data], although [deleteModel] merges only
    [accept]. *)
Lemma headers_stay_for_later_calls :
  map (fun r => (requestFactory_calls (snd r),
                 prop (assoc "headers" (obj_at (fst r) (_options translator))) "content-type"))
      (run part_of_description serialized_empty translator translator_store
         [ {| target := LanguageTranslator LanguageTranslatorV2.createModel;
              params := VObj [("base_model_id", VStr "en-es")];
              callback := VUndefined |};
           {| target := LanguageTranslator LanguageTranslatorV2.deleteModel;
              params := VObj [("model_id", VStr "custom")];
              callback := VUndefined |} ])
  = [(1, VStr "multipart/form-data"); (1, VStr "multipart/form-data")].
Proof. by vm_compute. Qed.

(** * More properties of the bindings *)

Lemma object_literal_values ps fields fs :
  object_literal ps fields = Normal fs ->
  fs = map (fun kp => (fst kp, prop ps (snd kp))) fields.
Proof.
  revert fs. induction fields as [|[k p] rest IH]; intros fs; simpl.
  - by intros [= <-].
  - unfold get. destruct (nullish ps); simpl; [done |].
    destruct (object_literal ps rest) as [fs'|]; simpl; [|done].
    intros [= <-]. by rewrite (IH fs' eq_refl).
Qed.

Lemma optional_literal_value ps fields r :
  optional_literal ps fields = Normal r ->
  match r with Some v => v | None => VUndefined end = literal_value ps fields.
Proof.
  destruct fields as [fields|]; simpl.
  - destruct (object_literal ps fields) as [fs|] eqn:E; simpl; [|done].
    intros [= <-]. by rewrite (object_literal_values _ _ _ E).
  - by intros [= <-].
Qed.

Lemma assoc_entry k r : assoc k (entry k r) = match r with Some v => v | None => VUndefined end.
Proof. destruct r; simpl; [by rewrite String.eqb_refl | done]. Qed.

Lemma assoc_map_fields (g : string -> value) k p fields :
  List.NoDup (map fst fields) -> In (k, p) fields ->
  assoc k (map (fun kp => (fst kp, g (snd kp))) fields) = g p.
Proof.
  induction fields as [|[k' p'] rest IH]; simpl; [done |].
  intros Hnd [Heq | Hin].
  - inversion Heq; subst. by rewrite String.eqb_refl.
  - inversion Hnd as [|? ? Hk Hrest]; subst.
    destruct (String.eqb k k') eqn:E.
    + apply String.eqb_eq in E. subst k'. exfalso. apply Hk.
      apply in_map_iff. by exists (k, p).
    + by apply IH.
Qed.

Section Descriptors.
Variable bf : value -> value.
Variable js : value -> completion string.

Lemma build_options_entries e ps opts :
  build_options bf js e ps = Normal opts ->
  prop opts "body" = literal_value ps (body e)
  /\ prop opts "qs" = literal_value ps (qs e)
  /\ prop opts "path" = literal_value ps (path e)
  /\ exists form,
       form_literal bf js e ps = Normal form
       /\ prop opts "formData" = match form with Some v => v | None => VUndefined end.
Proof.
  unfold build_options.
  destruct (form_literal bf js e ps) as [form|] eqn:Hform; simpl; [|done].
  destruct (optional_literal ps (body e)) as [b|] eqn:Hb; simpl; [|done].
  destruct (optional_literal ps (qs e)) as [q|] eqn:Hq; simpl; [|done].
  destruct (optional_literal ps (path e)) as [p|] eqn:Hpath; simpl; [|done].
  apply optional_literal_value in Hb, Hq, Hpath.
  intros [= <-].
  set (j := if json e then [("json", VBool true)] else []).
  assert (forall k, k <> "json" -> ~ In k (map fst j)) as Hj.
  { intros k Hk. subst j. destruct (json e); simpl; intuition. }
  assert (forall k k' r, k <> k' -> ~ In k (map fst (entry k' r))) as He.
  { intros k k' r Hk. rewrite entry_key. intros H. by apply key_if_in in H. }
  unfold prop. repeat split.
  - rewrite !assoc_skip by done. rewrite assoc_app_skip by (by apply Hj).
    destruct b as [bv|]; simpl app.
    + rewrite assoc_here. exact Hb.
    + rewrite !assoc_app_skip by (by apply He). rewrite <- Hb. by destruct form.
  - rewrite !assoc_skip by done. rewrite assoc_app_skip by (by apply Hj).
    rewrite assoc_app_skip by (by apply He).
    destruct q as [qv|]; simpl app.
    + rewrite assoc_here. exact Hq.
    + rewrite !assoc_app_skip by (by apply He). rewrite <- Hq. by destruct form.
  - rewrite !assoc_skip by done. rewrite assoc_app_skip by (by apply Hj).
    rewrite !assoc_app_skip by (by apply He).
    destruct p as [pv|]; simpl app.
    + rewrite assoc_here. exact Hpath.
    + rewrite <- Hpath. by destruct form.
  - exists form. split; [done |].
    rewrite !assoc_skip by done. rewrite assoc_app_skip by (by apply Hj).
    rewrite !assoc_app_skip by (by apply He).
    rewrite app_nil_r || idtac. apply assoc_entry.
Qed.

Lemma invoke_bag e this h params callback p cb :
  snd (invoke bf js e this h params callback) = Returned_requestFactory p cb ->
  build_options bf js e (bag e params callback) = Normal (options p)
  /\ cb = passed_callback e params callback.
Proof.
  unfold invoke, bag, passed_callback.
  destruct (requiredParams e) as [required|].
  - destruct (truthy _ && truthy callback).
    + simpl. unfold apply_callback. by destruct callback.
    + destruct (send bf js e this h params callback) as [h' o] eqn:E. simpl. intros ->.
      apply send_requestFactory in E. tauto.
  - destruct (String.eqb _ _ && negb (truthy callback)).
    + destruct (send bf js e this h (VObj []) _) as [h' o] eqn:E. simpl. intros ->.
      apply send_requestFactory in E. tauto.
    + destruct (send bf js e this h _ callback) as [h' o] eqn:E. simpl. intros ->.
      apply send_requestFactory in E. tauto.
Qed.
End Descriptors.

Lemma distinct_NoDup l : distinct l = true -> List.NoDup l.
Proof.
  induction l as [|x rest IH]; simpl; [constructor |].
  intros H. apply andb_true_iff in H. destruct H as [Hx Hrest].
  constructor; [|by apply IH].
  intros Hin. apply negb_true_iff in Hx.
  assert (existsb (String.eqb x) rest = true); [|congruence].
  apply existsb_exists. exists x. split; [done | apply String.eqb_refl].
Qed.

Lemma table_keys_distinct b : row_keys_distinct (endpoint_of b) = true.
Proof. by destruct b as [[]|[]]. Qed.

Lemma table_parameters b : row_parameters b = true.
Proof. by destruct b as [[]|[]]. Qed.

Lemma table_required_sent b : row_required_sent (endpoint_of b) = true.
Proof. by destruct b as [[]|[]]. Qed.

Lemma table_path_required b : row_path_required (endpoint_of b) = true.
Proof. by destruct b as [[]|[]]. Qed.

Lemma in_sections section :
  In section sections -> section = "body" \/ section = "qs" \/ section = "path".
Proof. simpl. intuition. Qed.

Section DescriptorSections.
Variable bf : value -> value.
Variable js : value -> completion string.

Lemma build_options_section e ps opts section :
  build_options bf js e ps = Normal opts ->
  In section sections ->
  prop opts section
  = literal_value ps (if String.eqb section "body" then body e
                      else if String.eqb section "qs" then qs e else path e).
Proof.
  intros Hb Hs. apply build_options_entries in Hb. destruct Hb as (H1 & H2 & H3 & _).
  apply in_sections in Hs. by destruct Hs as [-> | [-> | ->]].
Qed.

(** A key of a section of a descriptor is a key of the literal, and its
    value is the value of the parameter the literal names. *)
Lemma section_entry b ps opts section k :
  build_options bf js (endpoint_of b) ps = Normal opts ->
  In section sections ->
  In k (own_keys (prop opts section)) ->
  In (k, parameter_of b section k) (section_fields (endpoint_of b) section)
  /\ prop (prop opts section) k = prop ps (parameter_of b section k).
Proof.
  intros Hb Hs Hk.
  rewrite (build_options_section _ _ _ _ Hb Hs) in *.
  assert (literal_value ps (if String.eqb section "body" then body (endpoint_of b)
                            else if String.eqb section "qs" then qs (endpoint_of b)
                                 else path (endpoint_of b))
          = match (if String.eqb section "body" then body (endpoint_of b)
                   else if String.eqb section "qs" then qs (endpoint_of b)
                        else path (endpoint_of b)) with
            | Some _ => VObj (map (fun kp => (fst kp, prop ps (snd kp)))
                                  (section_fields (endpoint_of b) section))
            | None => VUndefined
            end) as Hv.
  { pose proof (in_sections _ Hs) as [-> | [-> | ->]]; unfold section_fields; simpl;
      [by destruct (body (endpoint_of b)) | by destruct (qs (endpoint_of b))
      | by destruct (path (endpoint_of b))]. }
  rewrite Hv in *. clear Hv.
  destruct (if String.eqb section "body" then _ else _); [|done].
  simpl in Hk. rewrite map_map in Hk. simpl in Hk.
  apply in_map_iff in Hk. destruct Hk as ([k' p] & Hk' & Hin). simpl in Hk'. subst k'.
  pose proof (table_parameters b) as Hp. unfold row_parameters in Hp.
  rewrite forallb_forall in Hp. specialize (Hp section Hs).
  rewrite forallb_forall in Hp. specialize (Hp (k, p) Hin). simpl in Hp.
  apply String.eqb_eq in Hp. subst p.
  split; [done |].
  pose proof (table_keys_distinct b) as Hd. unfold row_keys_distinct in Hd.
  rewrite forallb_forall in Hd. specialize (Hd section Hs). apply distinct_NoDup in Hd.
  unfold prop at 1. by apply (assoc_map_fields (prop ps)).
Qed.

End DescriptorSections.

Lemma or_else_not_nullish v : nullish (or_else v (VObj [])) = false.
Proof. unfold or_else. destruct (truthy v) eqn:E; [by destruct v | done]. Qed.

Section Parameters.
Variable bf : value -> value.
Variable js : value -> completion string.

(** A field of a literal of the table is an entry of the descriptor. *)
Lemma section_entry_of_field b ps opts section k p :
  build_options bf js (endpoint_of b) ps = Normal opts ->
  In section sections ->
  In (k, p) (section_fields (endpoint_of b) section) ->
  In k (own_keys (prop opts section))
  /\ prop (prop opts section) k = prop ps p.
Proof.
  intros Hb Hs Hin.
  rewrite (build_options_section _ _ _ _ _ _ Hb Hs).
  assert ((if String.eqb section "body" then body (endpoint_of b)
           else if String.eqb section "qs" then qs (endpoint_of b)
                else path (endpoint_of b))
          = Some (section_fields (endpoint_of b) section)) as ->.
  { pose proof (in_sections _ Hs) as [-> | [-> | ->]]; unfold section_fields in *;
      simpl in *;
      [destruct (body (endpoint_of b)) | destruct (qs (endpoint_of b))
      | destruct (path (endpoint_of b))]; done. }
  simpl. split.
  - rewrite map_map. simpl. apply in_map_iff. by exists (k, p).
  - pose proof (table_keys_distinct b) as Hd. unfold row_keys_distinct in Hd.
    rewrite forallb_forall in Hd. specialize (Hd section Hs). apply distinct_NoDup in Hd.
    by apply (assoc_map_fields (prop ps)).
Qed.

(** Every value under [body], [qs] or [path] of a descriptor is the
    value of a parameter of the bag, unchanged: the parameter of the same
    name, but for [default] of [listModels] and [return] of [query]. *)
Theorem sent_values_are_parameters b this h params callback p cb section k :
  snd (call bf js b this h params callback) = Returned_requestFactory p cb ->
  In section sections ->
  In k (own_keys (prop (options p) section)) ->
  prop (prop (options p) section) k
  = prop (bag (endpoint_of b) params callback) (parameter_of b section k).
Proof.
  intros Hcall Hs Hk. unfold call in Hcall. apply invoke_bag in Hcall.
  destruct Hcall as [Hb _].
  by destruct (section_entry bf js b _ _ section k Hb Hs Hk).
Qed.

(** Every required parameter of a method is sent: it is an entry of
    the [body], the [qs] or the [path] of the descriptor, under its own
    name and with the value the caller gave. *)
Theorem required_parameters_are_sent b required this h params callback p cb r :
  requiredParams (endpoint_of b) = Some required ->
  snd (call bf js b this h params callback) = Returned_requestFactory p cb ->
  In r required ->
  exists section,
    In section sections
    /\ In r (own_keys (prop (options p) section))
    /\ prop (prop (options p) section) r = prop params r.
Proof.
  intros Hreq Hcall Hr. unfold call in Hcall. apply invoke_bag in Hcall.
  destruct Hcall as [Hb _]. unfold bag in Hb. rewrite Hreq in Hb.
  pose proof (table_required_sent b) as Ht. unfold row_required_sent in Ht.
  rewrite Hreq in Ht. rewrite forallb_forall in Ht. specialize (Ht r Hr).
  apply existsb_exists in Ht. destruct Ht as (section & Hs & Ht).
  apply existsb_exists in Ht. destruct Ht as ([k p'] & Hin & Hkp). simpl in Hkp.
  apply andb_true_iff in Hkp. destruct Hkp as [Hk Hp'].
  apply String.eqb_eq in Hk, Hp'. subst k p'.
  exists section. split; [done |].
  by apply (section_entry_of_field b params (options p) section r r).
Qed.

(** Every placeholder of the URL of a request is a required parameter of
    the method, and the [path] value that fills it is the value the
    caller gave for that parameter. *)
Theorem placeholders_are_required_parameters b this h params callback p cb key :
  snd (call bf js b this h params callback) = Returned_requestFactory p cb ->
  In key (url_placeholders (options p)) ->
  (exists required,
      requiredParams (endpoint_of b) = Some required /\ In key required)
  /\ prop (prop (options p) "path") key = prop params key.
Proof.
  intros Hcall Hkey. unfold call in Hcall.
  apply invoke_bag in Hcall. destruct Hcall as [Hb _].
  pose proof (build_options_shape bf js _ _ _ Hb) as (_ & Hurl & _ & _ & Hpath & _).
  unfold url_placeholders in Hkey. rewrite Hurl, placeholders_path in Hkey.
  assert (In key (map fst (fields_of (path (endpoint_of b))))) as Hin
    by (by destruct (path (endpoint_of b))).
  apply in_map_iff in Hin. destruct Hin as ([k p'] & Hk & Hin). simpl in Hk. subst k.
  pose proof (table_path_required b) as Ht. unfold row_path_required in Ht.
  rewrite forallb_forall in Ht. specialize (Ht (key, p') Hin). simpl in Ht.
  apply andb_true_iff in Ht. destruct Ht as [Hsame Hrequired].
  apply String.eqb_eq in Hsame. subst p'.
  apply existsb_eqb in Hrequired.
  destruct (requiredParams (endpoint_of b)) as [required|] eqn:Hreq; [|done].
  split; [by exists required |].
  assert (In (key, key) (section_fields (endpoint_of b) "path")) as Hfield by done.
  unfold bag in Hb. rewrite Hreq in Hb.
  by destruct (section_entry_of_field b params (options p) "path" key key Hb
                 ltac:(simpl; tauto) Hfield).
Qed.

Lemma no_form_no_parts b :
  formData (endpoint_of b) = None -> formData_optional (endpoint_of b) = [].
Proof. by destruct b as [[]|[]]. Qed.

Lemma optional_no_form b :
  requiredParams (endpoint_of b) = None -> formData (endpoint_of b) = None.
Proof. by destruct b as [[]|[]]. Qed.

Lemma no_form_stringifies b ps :
  formData (endpoint_of b) = None -> stringifies js (endpoint_of b) ps.
Proof. intros H k Hk. rewrite (no_form_no_parts b H) in Hk. destruct Hk. Qed.

(** A call of a method without [formData], with a function as callback,
    never throws, whatever [params] is: it returns [callback(err)],
    leaving the store as it was, or it returns
    [requestFactory(parameters, callback)] with that callback. *)
Theorem function_callback_never_throws b this h params f fname :
  formData (endpoint_of b) = None ->
  (exists err,
      call bf js b this h params (VFun f fname)
      = (h, Returned_callback (VFun f fname) err))
  \/ (exists p,
         snd (call bf js b this h params (VFun f fname))
         = Returned_requestFactory p (VFun f fname)).
Proof.
  intros Hform. pose proof (no_form_stringifies b) as Hjs.
  unfold call, invoke. destruct (requiredParams (endpoint_of b)) as [required|] eqn:Hreq.
  - unfold getMissingParams.
    destruct (validateRequired (or_else params (VObj [])) required) eqn:Hv.
    + right. simpl.
      assert (nullish params = false) as Hp.
      { destruct (nullish params) eqn:Hn; [|done].
        assert (or_else params (VObj []) = VObj []) as Hor by (by destruct params).
        rewrite Hor, validateRequired_nothing in Hv.
        by apply required_nonempty in Hreq. }
      destruct (send_defined bf js (endpoint_of b) this h params (VFun f fname) Hp
                  (Hjs params Hform))
        as (opts & _ & ->). by eexists.
    + left. simpl. by eexists.
  - right. simpl. rewrite andb_false_r.
    destruct (send_defined bf js (endpoint_of b) this h (or_else params (VObj []))
                (VFun f fname) (or_else_not_nullish params) (Hjs _ Hform))
      as (opts & _ & ->).
    by eexists.
Qed.

(** A method whose parameters are all optional never throws and never
    ends in the callback: whatever it is called with, [null] and
    [undefined] included, it builds its descriptor from the bag and
    returns [requestFactory(parameters, callback)]. *)
Theorem optional_methods_always_send b this h params callback :
  requiredParams (endpoint_of b) = None ->
  exists opts,
    build_options bf js (endpoint_of b) (bag (endpoint_of b) params callback) = Normal opts
    /\ snd (call bf js b this h params callback)
       = Returned_requestFactory {| options := opts; defaultOptions := _options this |}
           (passed_callback (endpoint_of b) params callback).
Proof.
  intros Hreq. pose proof (no_form_stringifies b) as Hjs.
  pose proof (optional_no_form b Hreq) as Hform.
  unfold call, invoke, bag, passed_callback. rewrite Hreq.
  destruct (String.eqb _ _ && negb (truthy callback)).
  - destruct (send_defined bf js (endpoint_of b) this h (VObj [])
                (or_else params (VObj [])) eq_refl (Hjs _ Hform)) as (opts & Hopts & ->).
    by exists opts.
  - destruct (send_defined bf js (endpoint_of b) this h (or_else params (VObj []))
                callback (or_else_not_nullish params) (Hjs _ Hform))
      as (opts & Hopts & ->).
    by exists opts.
Qed.

End Parameters.

(** ** Keys of objects under assignment *)

Lemma assoc_set_keys k v fields x :
  In x (map fst (assoc_set k v fields)) <-> x = k \/ In x (map fst fields).
Proof.
  induction fields as [|[k' v'] rest IH]; simpl.
  - intuition.
  - destruct (String.eqb k k') eqn:E; simpl.
    + apply String.eqb_eq in E. subst k'. intuition.
    + rewrite IH. intuition.
Qed.

Lemma assoc_set_same k v fields :
  In k (map fst fields) -> assoc k fields = v -> assoc_set k v fields = fields.
Proof.
  induction fields as [|[k' v'] rest IH]; simpl; [done |].
  destruct (String.eqb k k') eqn:E.
  - by intros _ ->.
  - intros [Hk | Hin] Hv.
    + subst k'. by rewrite String.eqb_refl in E.
    + by rewrite IH.
Qed.

Lemma extend_deep_strings_keys hs target x :
  In x (map fst target) \/ In x (map fst hs) ->
  In x (map fst (extend_deep target (string_literals hs))).
Proof.
  revert target. induction hs as [|[k v] rest IH]; intros target; simpl; [tauto |].
  intros H. apply IH. rewrite assoc_set_keys. intuition.
Qed.

(** Merging strings that are already there changes nothing. *)
Lemma extend_deep_strings_fixed hs target :
  (forall k v, In (k, v) hs -> In k (map fst target) /\ assoc k target = VStr v) ->
  extend_deep target (string_literals hs) = target.
Proof.
  induction hs as [|[k v] rest IH]; intros H; simpl; [done |].
  destruct (H k v ltac:(simpl; tauto)) as [Hk Hv].
  rewrite assoc_set_same by done. apply IH. intros k' v' Hin. apply H. simpl. tauto.
Qed.

Lemma extend_deep_headers_twice b o :
  extend_deep (extend_deep o (headers_literal (endpoint_of b))) (headers_literal (endpoint_of b))
  = extend_deep o (headers_literal (endpoint_of b)).
Proof.
  rewrite (extend_deep_headers (endpoint_of b) (extend_deep _ _)).
  rewrite (extend_deep_headers (endpoint_of b) o).
  rewrite assoc_set_eq. cbn [plain_object].
  rewrite extend_deep_strings_fixed.
  - apply assoc_set_same; [|apply assoc_set_eq].
    apply assoc_set_keys. tauto.
  - intros k v Hin. split.
    + apply extend_deep_strings_keys. right. apply in_map_iff. by exists (k, v).
    + apply extend_deep_strings_set; [apply headers_nodup | done].
Qed.

Lemma accept_header b : In ("accept", "application/json") (headers (endpoint_of b)).
Proof. destruct b as [[]|[]]; simpl; tauto. Qed.

Lemma table_method b : row_method (endpoint_of b) = true.
Proof. by destruct b as [[]|[]]. Qed.

Section StoredDefaults.
Variable bf : value -> value.
Variable js : value -> completion string.

Lemma reached_iff e this h params callback :
  requestFactory_calls (snd (invoke bf js e this h params callback)) = 1 ->
  exists p cb, snd (invoke bf js e this h params callback) = Returned_requestFactory p cb.
Proof. destruct (snd _); try discriminate. eauto. Qed.

(** Calling a method again changes nothing more: after a call that
    reached [requestFactory], a second call of the same method, with any
    arguments, leaves the store as the first call left it. *)
Theorem repeated_call_keeps_store b this h params callback params' callback' :
  requestFactory_calls (snd (call bf js b this h params callback)) = 1 ->
  fst (call bf js b this (fst (call bf js b this h params callback)) params' callback')
  = fst (call bf js b this h params callback).
Proof.
  unfold call. intros Hreached. apply reached_iff in Hreached.
  destruct Hreached as (p & cb & Hp). apply invoke_reached in Hp. destruct Hp as [_ ->].
  destruct (invoke_cases bf js (endpoint_of b) this
              (<[_options this := extend_deep (obj_at h (_options this))
                                    (headers_literal (endpoint_of b))]> h)
              params' callback') as [[_ ->] | (p' & cb' & _ & _ & ->)]; [done |].
  rewrite obj_at_insert, extend_deep_headers_twice. apply insert_insert_eq.
Qed.

(** After a call that reached [requestFactory], the headers that the
    method does not name are the ones that were there. *)
Lemma call_headers_other b this h params callback p cb name :
  snd (call bf js b this h params callback) = Returned_requestFactory p cb ->
  ~ In name (map fst (headers (endpoint_of b))) ->
  prop (assoc "headers" (obj_at (fst (call bf js b this h params callback)) (_options this)))
       name
  = assoc name (plain_object (assoc "headers" (obj_at h (_options this)))).
Proof.
  unfold call. intros H Hn. apply invoke_reached in H. destruct H as [_ ->].
  rewrite obj_at_insert, extend_deep_headers, assoc_set_eq. simpl.
  by apply extend_deep_strings_other.
Qed.

Lemma call_headers_object b this h params callback p cb :
  snd (call bf js b this h params callback) = Returned_requestFactory p cb ->
  exists hs,
    assoc "headers" (obj_at (fst (call bf js b this h params callback)) (_options this))
    = VObj hs.
Proof.
  unfold call. intros H. apply invoke_reached in H. destruct H as [_ ->].
  rewrite obj_at_insert, extend_deep_headers, assoc_set_eq. by eexists.
Qed.

(** A header merged by one call stays in the stored defaults until a
    later call merges the same name: after a call of [a] that reached
    [requestFactory], any call of a method [b] that does not name the
    header leaves it with the value [a] gave it. *)
Theorem header_stays_until_merged_again
    a b this h params callback params' callback' name v :
  requestFactory_calls (snd (call bf js a this h params callback)) = 1 ->
  In (name, v) (headers (endpoint_of a)) ->
  ~ In name (map fst (headers (endpoint_of b))) ->
  prop (assoc "headers"
          (obj_at (fst (call bf js b this (fst (call bf js a this h params callback))
                          params' callback'))
                  (_options this)))
       name
  = VStr v.
Proof.
  intros Hreached Hin Hn. unfold call in Hreached. apply reached_iff in Hreached.
  destruct Hreached as (p & cb & Hp). fold (call bf js a this h params callback) in Hp.
  pose proof (call_headers_set bf js a this h params callback p cb name v Hp Hin) as Hset.
  destruct (call_headers_object a this h params callback p cb Hp) as [hs Hhs].
  set (h1 := fst (call bf js a this h params callback)) in *.
  destruct (snd (call bf js b this h1 params' callback')) as [c err|p' cb'|err] eqn:Eb.
  - assert (fst (call bf js b this h1 params' callback') = h1) as ->; [|done].
    apply invoke_store. unfold call in Eb. by rewrite Eb.
  - rewrite (call_headers_other b this h1 params' callback' p' cb' name Eb Hn).
    rewrite Hhs in *. exact Hset.
  - assert (fst (call bf js b this h1 params' callback') = h1) as ->; [|done].
    apply invoke_store. unfold call in Eb. by rewrite Eb.
Qed.

(** Every call that reaches [requestFactory] leaves
    [accept: application/json] in the headers of the stored defaults, and
    no later call of any method takes it away. *)
Theorem accept_header_is_kept this :
  (forall b h params callback,
      requestFactory_calls (snd (call bf js b this h params callback)) = 1 ->
      prop (assoc "headers" (obj_at (fst (call bf js b this h params callback))
                                    (_options this))) "accept"
      = VStr "application/json")
  /\ (forall calls h,
        prop (assoc "headers" (obj_at h (_options this))) "accept" = VStr "application/json" ->
        Forall (fun r =>
                  prop (assoc "headers" (obj_at (fst r) (_options this))) "accept"
                  = VStr "application/json")
               (run bf js this h calls)).
Proof.
  assert (forall b h params callback,
             requestFactory_calls (snd (call bf js b this h params callback)) = 1 ->
             prop (assoc "headers" (obj_at (fst (call bf js b this h params callback))
                                           (_options this))) "accept"
             = VStr "application/json") as Hset.
  { intros b h params callback Hreached. unfold call in Hreached.
    apply reached_iff in Hreached. destruct Hreached as (p & cb & Hp).
    eapply call_headers_set; [exact Hp | apply accept_header]. }
  split; [exact Hset |].
  induction calls as [|c rest IH]; intros h Hh; simpl; constructor.
  - destruct (requestFactory_calls
                (snd (call bf js (target c) this h (params c) (callback c)))) eqn:E.
    + unfold call in *. by rewrite invoke_store.
    + apply Hset. destruct (snd _); simpl in *; congruence.
  - apply IH.
    destruct (requestFactory_calls
                (snd (call bf js (target c) this h (params c) (callback c)))) eqn:E.
    + unfold call in *. by rewrite invoke_store.
    + apply Hset. destruct (snd _); simpl in *; congruence.
Qed.

(** A GET or DELETE request carries neither a [body] nor [formData];
    a POST or PUT request carries one of them (and, by C5, not both);
    there is no other HTTP method. *)
Theorem body_follows_http_method b this h params callback p cb :
  snd (call bf js b this h params callback) = Returned_requestFactory p cb ->
  ((prop (options p) "method" = VStr "GET" \/ prop (options p) "method" = VStr "DELETE")
   /\ ~ In "body" (own_keys (options p))
   /\ ~ In "formData" (own_keys (options p)))
  \/ ((prop (options p) "method" = VStr "POST" \/ prop (options p) "method" = VStr "PUT")
      /\ (In "body" (own_keys (options p)) \/ In "formData" (own_keys (options p)))).
Proof.
  intros Hcall. unfold call in Hcall. apply invoke_bag in Hcall. destruct Hcall as [Hb _].
  apply build_options_shape in Hb. destruct Hb as (Hkeys & _ & Hmethod & _).
  rewrite Hkeys, Hmethod. unfold options_keys.
  pose proof (table_method b) as Ht. unfold row_method in Ht.
  destruct (String.eqb (method (endpoint_of b)) "GET"
            || String.eqb (method (endpoint_of b)) "DELETE") eqn:E.
  - left. apply orb_true_iff in E. rewrite !String.eqb_eq in E.
    split; [destruct E as [-> | ->]; tauto |].
    destruct (body (endpoint_of b)), (formData (endpoint_of b)); try discriminate Ht.
    destruct (json (endpoint_of b)), (qs (endpoint_of b)), (path (endpoint_of b));
      simpl; intuition discriminate.
  - right. apply andb_true_iff in Ht. destruct Ht as [Hm Hbody].
    apply orb_true_iff in Hm. rewrite !String.eqb_eq in Hm.
    split; [destruct Hm as [-> | ->]; tauto |].
    destruct (body (endpoint_of b)), (formData (endpoint_of b)); try discriminate Hbody;
      destruct (json (endpoint_of b)), (qs (endpoint_of b)), (path (endpoint_of b));
      simpl; tauto.
Qed.

End StoredDefaults.

(** ** Multipart form data *)

Lemma table_parts b : row_parts (endpoint_of b) = true.
Proof. by destruct b as [[]|[]]. Qed.

Lemma assoc_in_map {A : Type} (key : A -> string) (val : A -> value) (l : list A) x :
  List.NoDup (map key l) -> In x l ->
  assoc (key x) (map (fun y => (key y, val y)) l) = val x.
Proof.
  induction l as [|y rest IH]; simpl; [done |].
  intros Hnd [-> | Hin].
  - by rewrite String.eqb_refl.
  - inversion Hnd as [|? ? Hk Hrest]; subst.
    destruct (String.eqb (key x) (key y)) eqn:E.
    + apply String.eqb_eq in E. exfalso. apply Hk. rewrite <- E. by apply in_map.
    + by apply IH.
Qed.

Section FormData.
Variable bf : value -> value.
Variable js : value -> completion string.

Lemma file_parts_values ps parts fs :
  file_parts bf ps parts = Normal fs ->
  fs = map (fun p => (part p, bf (part_description ps p))) parts.
Proof.
  revert fs. induction parts as [|p rest IH]; intros fs; simpl.
  - by intros [= <-].
  - unfold get. destruct (nullish ps); simpl; [done |].
    destruct (file_parts bf ps rest) as [fs'|]; simpl.
    + rewrite (IH fs' eq_refl). unfold part_description.
      destruct (contentType p); simpl; by intros [= <-].
    + by destruct (contentType p).
Qed.

Lemma optional_parts_values ps names form fs :
  optional_parts js ps names form = Normal fs ->
  (forall k, ~ In k names -> assoc k fs = assoc k form)
  /\ (List.NoDup names ->
      forall k, In k names ->
                if truthy (prop ps k) then stringified js (prop ps k) (assoc k fs)
                else assoc k fs = assoc k form)
  /\ (forall x, In x (map fst fs)
                <-> In x (map fst form) \/ (In x names /\ truthy (prop ps x) = true)).
Proof.
  revert form. induction names as [|k rest IH]; intros form; simpl.
  - intros [= <-]. repeat split; tauto.
  - unfold get. destruct (nullish ps); cbn [bind]; [done |].
    destruct (truthy (prop ps k)) eqn:E; cbn [bind].
    + destruct (if String.eqb (typeof (prop ps k)) "object" then _ else _)
        as [sent|] eqn:Heq; cbn [bind]; [|done].
      assert (stringified js (prop ps k) sent) as Hsent.
      { unfold stringified. destruct (String.eqb (typeof (prop ps k)) "object").
        - destruct (js (prop ps k)) as [str|]; cbn [bind] in Heq; [|done].
          injection Heq as <-. eauto.
        - by injection Heq as <-. }
      clear Heq.
      intros H. apply IH in H. destruct H as (Hother & Hin & Hkeys).
      split; [| split].
      * intros x Hx. rewrite Hother by tauto. apply assoc_set_ne. intros ->. tauto.
      * intros Hnd x Hx. inversion Hnd as [|? ? Hk Hrest]; subst.
        destruct Hx as [<- | Hx].
        -- rewrite E. by rewrite Hother, assoc_set_eq.
        -- specialize (Hin Hrest x Hx). destruct (truthy (prop ps x)); [done |].
           rewrite Hin. apply assoc_set_ne. intros ->. tauto.
      * intros x. rewrite Hkeys, assoc_set_keys. split; [|intuition (subst; tauto)].
        intros [[-> | H] | H]; tauto.
    + intros H. apply IH in H. destruct H as (Hother & Hin & Hkeys).
      split; [| split].
      * intros x Hx. apply Hother. tauto.
      * intros Hnd x Hx. inversion Hnd as [|? ? Hk Hrest]; subst.
        destruct Hx as [<- | Hx].
        -- rewrite E. by apply Hother.
        -- by apply Hin.
      * intros x. rewrite Hkeys. split; [tauto |].
        intros [H | [[<- | H] Ht]]; try tauto. congruence.
Qed.

(** The [formData] of a descriptor: the file parts, then the optional parts. *)
Lemma sent_formData b this h params callback p cb :
  snd (call bf js b this h params callback) = Returned_requestFactory p cb ->
  forall parts, formData (endpoint_of b) = Some parts ->
  exists fs,
    prop (options p) "formData" = VObj fs
    /\ optional_parts js (bag (endpoint_of b) params callback)
         (formData_optional (endpoint_of b))
         (map (fun q => (part q, bf (part_description (bag (endpoint_of b) params callback) q)))
              parts)
       = Normal fs.
Proof.
  intros Hcall parts Hparts. unfold call in Hcall. apply invoke_bag in Hcall.
  destruct Hcall as [Hb _]. apply build_options_entries in Hb.
  destruct Hb as (_ & _ & _ & form & Hform & Hprop).
  unfold form_literal in Hform. rewrite Hparts in Hform.
  destruct (file_parts bf _ parts) as [fs0|] eqn:E0; simpl in Hform; [|done].
  destruct (optional_parts js _ _ fs0) as [fs|] eqn:E1; simpl in Hform; [|done].
  injection Hform as <-. exists fs. split; [done |].
  by rewrite <- (file_parts_values _ _ _ E0).
Qed.

(** Every file part of a method with [formData] is in the form data
    of every request, built by [helper.buildRequestFileObject] from the
    parameter and the content type of the part; when the caller gives no
    file, the part is still there, built from [undefined]. *)
Theorem file_parts_are_always_sent b this h params callback p cb parts q :
  snd (call bf js b this h params callback) = Returned_requestFactory p cb ->
  formData (endpoint_of b) = Some parts ->
  In q parts ->
  In (part q) (own_keys (prop (options p) "formData"))
  /\ prop (prop (options p) "formData") (part q)
     = bf (part_description (bag (endpoint_of b) params callback) q).
Proof.
  intros Hcall Hparts Hq.
  destruct (sent_formData b this h params callback p cb Hcall parts Hparts)
    as (fs & -> & Hfs).
  apply optional_parts_values in Hfs. destruct Hfs as (Hother & _ & Hkeys).
  pose proof (table_parts b) as Ht. unfold row_parts in Ht. rewrite Hparts in Ht.
  apply distinct_NoDup in Ht. simpl in Ht. rewrite <- NoDup_ListNoDup in Ht.
  assert (~ In (part q) (formData_optional (endpoint_of b))) as Hn.
  { intros Hin. apply NoDup_app in Ht. destruct Ht as (_ & Hdisjoint & _).
    apply (Hdisjoint (part q)).
    - apply list_elem_of_In. by apply in_map.
    - by apply list_elem_of_In. }
  simpl. split.
  - apply Hkeys. left. rewrite map_map. simpl. by apply in_map.
  - rewrite Hother by done.
    apply (assoc_in_map part (fun q => bf (part_description _ q))); [|done].
    apply NoDup_app in Ht. destruct Ht as (Hnd & _). by apply NoDup_ListNoDup.
Qed.

(** An optional part ([metadata], [configuration]) is in the form data
    exactly when the parameter is truthy; an object is sent as its
    [JSON.stringify], anything else as it is; an empty string, [0],
    [false], [null] or no value at all sends no part. *)
Theorem optional_parts_sent_when_truthy b this h params callback p cb k :
  snd (call bf js b this h params callback) = Returned_requestFactory p cb ->
  In k (formData_optional (endpoint_of b)) ->
  (In k (own_keys (prop (options p) "formData"))
   <-> truthy (prop (bag (endpoint_of b) params callback) k) = true)
  /\ (if truthy (prop (bag (endpoint_of b) params callback) k)
      then stringified js (prop (bag (endpoint_of b) params callback) k)
             (prop (prop (options p) "formData") k)
      else prop (prop (options p) "formData") k = VUndefined).
Proof.
  intros Hcall Hk.
  pose proof (table_parts b) as Ht. unfold row_parts in Ht.
  apply distinct_NoDup in Ht.
  destruct (formData (endpoint_of b)) as [parts|] eqn:Hparts.
  - destruct (sent_formData b this h params callback p cb Hcall parts Hparts)
      as (fs & -> & Hfs).
    apply optional_parts_values in Hfs. destruct Hfs as (_ & Hin & Hkeys).
    simpl in Ht. rewrite <- NoDup_ListNoDup in Ht.
    apply NoDup_app in Ht. destruct Ht as (_ & Hdisjoint & Hnd).
    assert (~ In k (map part parts)) as Hn.
    { intros H. apply (Hdisjoint k); by apply list_elem_of_In. }
    simpl. split.
    + rewrite Hkeys, map_map. simpl. tauto.
    + specialize (Hin (proj1 (NoDup_ListNoDup _) Hnd) k Hk).
      destruct (truthy _); [done |].
      rewrite Hin. apply assoc_not_key. by rewrite map_map.
  - exfalso. revert Hparts Hk. clear. by destruct b as [[]|[]].
Qed.

End FormData.

(** ** The constructors *)

Section Construction.
Variable BaseService : value -> store -> completion (service * store).

(** A successful construction of a DiscoveryV1 client changes nothing
    but [version] in the [qs] of [this._options]: the client is the one
    [BaseService] made, every other object of the store, every other
    entry of [_options] and every other entry of [qs] are as
    [BaseService] left them. *)
Theorem constructor_changes_only_qs_version opts h this h1 this' h2 :
  BaseService opts h = Normal (this, h1) ->
  DiscoveryV1.constructor BaseService opts h = Normal (this', h2) ->
  this' = this
  /\ (forall l, l <> _options this -> h2 !! l = h1 !! l)
  /\ (forall k, k <> "qs" ->
                assoc k (obj_at h2 (_options this)) = assoc k (obj_at h1 (_options this)))
  /\ (forall k, k <> "version" ->
                prop (assoc "qs" (obj_at h2 (_options this))) k
                = prop (assoc "qs" (obj_at h1 (_options this))) k).
Proof.
  intros Hsuper. unfold DiscoveryV1.constructor. rewrite Hsuper. cbn [bind fst snd].
  destruct (String.eqb _ "undefined"); [done |].
  unfold get. destruct (nullish opts); cbn [bind]; [done |].
  destruct (set (assoc "qs" (obj_at h1 (_options this))) "version" (prop opts "version_date"))
    as [qs'|] eqn:Hset; cbn [bind]; [|done].
  intros [= <- <-]. split; [done |]. split; [| split].
  - intros l Hl. by rewrite lookup_insert_ne.
  - intros k Hk. rewrite obj_at_insert. by apply assoc_set_ne.
  - intros k Hk. rewrite obj_at_insert, assoc_set_eq.
    destruct (assoc "qs" (obj_at h1 (_options this))); simpl in Hset;
      try discriminate Hset; injection Hset as <-; try done.
    simpl. by apply assoc_set_ne.
Qed.

(** When [this._options] has a [version_date] but [options] is [null]
    or [undefined], or [this._options.qs] is, the assignment
    [this._options.qs.version = options.version_date] throws a TypeError
    and no client is made. *)
Theorem constructor_needs_options_and_qs opts h this h1 :
  BaseService opts h = Normal (this, h1) ->
  typeof (assoc "version_date" (obj_at h1 (_options this))) <> "undefined" ->
  nullish opts = true \/ nullish (assoc "qs" (obj_at h1 (_options this))) = true ->
  DiscoveryV1.constructor BaseService opts h = Throw TypeError.
Proof.
  intros Hsuper Hdate Hnull. unfold DiscoveryV1.constructor. rewrite Hsuper.
  cbn [bind fst snd]. apply String.eqb_neq in Hdate. rewrite Hdate.
  unfold get. destruct (nullish opts); cbn [bind]; [done |].
  destruct Hnull as [Hnull | Hnull]; [done |].
  by destruct (assoc "qs" (obj_at h1 (_options this))).
Qed.

End Construction.

(** ** The properties on concrete calls *)

(** [listModels({default_models: true})] sends [default: true]. *)
Lemma sent_values_at_listModels :
  prop (VObj [("source", VUndefined); ("target", VUndefined); ("default", VBool true)])
       "default"
  = VBool true.
Proof.
  apply (sent_values_are_parameters part_of_description serialized_empty
           listModels' translator translator_store
           (VObj [("default_models", VBool true)]) VUndefined
           {| options := VObj [("url", VStr "/v2/models"); ("method", VStr "GET");
                               ("qs", VObj [("source", VUndefined); ("target", VUndefined);
                                            ("default", VBool true)])];
              defaultOptions := 0 |} VUndefined "qs" "default").
  - reflexivity.
  - simpl. tauto.
  - simpl. tauto.
Defined.

Lemma required_parameters_at_deleteModel :
  exists section,
    In section sections
    /\ In "model_id" (own_keys (prop (options deleteModel_custom) section))
    /\ prop (prop (options deleteModel_custom) section) "model_id" = VStr "custom".
Proof.
  apply (required_parameters_are_sent part_of_description serialized_empty
           deleteModel' ["model_id"] translator translator_store
           (VObj [("model_id", VStr "custom")]) VUndefined deleteModel_custom VUndefined
           "model_id").
  - reflexivity.
  - reflexivity.
  - simpl. tauto.
Defined.

Lemma placeholders_required_at_deleteModel :
  (exists required,
      requiredParams (endpoint_of deleteModel') = Some required /\ In "model_id" required)
  /\ prop (prop (options deleteModel_custom) "path") "model_id" = VStr "custom".
Proof.
  apply (placeholders_are_required_parameters part_of_description serialized_empty
           deleteModel' translator translator_store
           (VObj [("model_id", VStr "custom")]) VUndefined deleteModel_custom VUndefined
           "model_id").
  - reflexivity.
  - simpl. tauto.
Defined.

(** [translate], which builds no [formData], does not throw on [null]
    with a function as callback. *)
Lemma function_callback_at_translate_null :
  formData (endpoint_of translate') = None
  /\ ((exists err,
          call' translate' translator translator_store VNull (VFun 1 "cb")
          = (translator_store, Returned_callback (VFun 1 "cb") err))
      \/ (exists p,
             snd (call' translate' translator translator_store VNull (VFun 1 "cb"))
             = Returned_requestFactory p (VFun 1 "cb"))).
Proof.
  split; [reflexivity |].
  apply (function_callback_never_throws part_of_description serialized_empty
           translate' translator translator_store VNull 1 "cb").
  reflexivity.
Defined.

(** [listModels(null)] is sent with an empty bag. *)
Lemma optional_methods_at_listModels_null :
  exists opts,
    build_options part_of_description serialized_empty (endpoint_of listModels') (VObj [])
    = Normal opts
    /\ snd (call' listModels' translator translator_store VNull VUndefined)
       = Returned_requestFactory {| options := opts; defaultOptions := 0 |} VUndefined.
Proof.
  apply (optional_methods_always_send part_of_description serialized_empty
           listModels' translator translator_store VNull VUndefined).
  reflexivity.
Defined.

Lemma repeated_call_at_translate :
  fst (call' translate' translator
         (fst (call' translate' translator translator_store
                 (VObj [("text", VStr "hello")]) VUndefined))
         (VObj [("text", VStr "bonjour")]) (VFun 1 "cb"))
  = fst (call' translate' translator translator_store
           (VObj [("text", VStr "hello")]) VUndefined).
Proof.
  apply (repeated_call_keeps_store part_of_description serialized_empty
           translate' translator translator_store
           (VObj [("text", VStr "hello")]) VUndefined
           (VObj [("text", VStr "bonjour")]) (VFun 1 "cb")).
  reflexivity.
Defined.

Lemma header_stays_at_createModel_deleteModel :
  prop (assoc "headers"
          (obj_at (fst (call' deleteModel' translator
                          (fst (call' createModel' translator translator_store
                                  (VObj [("base_model_id", VStr "en-es")]) VUndefined))
                          (VObj [("model_id", VStr "custom")]) VUndefined))
                  (_options translator)))
       "content-type"
  = VStr "multipart/form-data".
Proof.
  apply (header_stays_until_merged_again part_of_description serialized_empty
           createModel' deleteModel' translator translator_store
           (VObj [("base_model_id", VStr "en-es")]) VUndefined
           (VObj [("model_id", VStr "custom")]) VUndefined
           "content-type" "multipart/form-data").
  - reflexivity.
  - simpl. tauto.
  - simpl. intuition discriminate.
Defined.

Lemma body_follows_at_deleteModel :
  ((prop (options deleteModel_custom) "method" = VStr "GET"
    \/ prop (options deleteModel_custom) "method" = VStr "DELETE")
   /\ ~ In "body" (own_keys (options deleteModel_custom))
   /\ ~ In "formData" (own_keys (options deleteModel_custom)))
  \/ ((prop (options deleteModel_custom) "method" = VStr "POST"
       \/ prop (options deleteModel_custom) "method" = VStr "PUT")
      /\ (In "body" (own_keys (options deleteModel_custom))
          \/ In "formData" (own_keys (options deleteModel_custom)))).
Proof.
  apply (body_follows_http_method part_of_description serialized_empty
           deleteModel' translator translator_store
           (VObj [("model_id", VStr "custom")]) VUndefined deleteModel_custom VUndefined).
  reflexivity.
Defined.

(** [addDocument] without a file still sends the [file] part. *)
Lemma file_part_at_addDocument_without_file :
  In "file" (own_keys (prop (options addDocument_without_file) "formData"))
  /\ prop (prop (options addDocument_without_file) "formData") "file"
     = VObj [("data", VUndefined); ("contentType", VUndefined)].
Proof.
  apply (file_parts_are_always_sent part_of_description serialized_empty
           addDocument' discovery discovery_store collection_params VUndefined
           addDocument_without_file VUndefined
           [{| part := "file"; data := "file"; contentType := FromParam "file_content_type" |}]
           {| part := "file"; data := "file"; contentType := FromParam "file_content_type" |}).
  - reflexivity.
  - reflexivity.
  - simpl. tauto.
Defined.

(** [addDocument] with [metadata: ''] sends no [metadata] part. *)
Lemma optional_part_at_addDocument_empty_metadata :
  (In "metadata" (own_keys (prop (options addDocument_without_file) "formData"))
   <-> false = true)
  /\ prop (prop (options addDocument_without_file) "formData") "metadata" = VUndefined.
Proof.
  apply (optional_parts_sent_when_truthy part_of_description serialized_empty
           addDocument' discovery discovery_store collection_params VUndefined
           addDocument_without_file VUndefined "metadata").
  - reflexivity.
  - simpl. tauto.
Defined.

Lemma constructor_frame_at_2017_09_01 :
  discovery = discovery
  /\ (forall l, l <> _options discovery ->
                discovery_store !! l
                = (<[0 := assoc_set "qs" (VObj []) (plain_object discovery_options)]> ∅
                   : store) !! l)
  /\ (forall k, k <> "qs" ->
                assoc k (obj_at discovery_store (_options discovery))
                = assoc k (obj_at (<[0 := assoc_set "qs" (VObj [])
                                           (plain_object discovery_options)]> ∅)
                                  (_options discovery)))
  /\ (forall k, k <> "version" ->
                prop (assoc "qs" (obj_at discovery_store (_options discovery))) k
                = prop (assoc "qs" (obj_at (<[0 := assoc_set "qs" (VObj [])
                                                  (plain_object discovery_options)]> ∅)
                                           (_options discovery))) k).
Proof.
  apply (constructor_changes_only_qs_version copy_options discovery_options ∅
           discovery
           (<[0 := assoc_set "qs" (VObj []) (plain_object discovery_options)]> ∅)
           discovery discovery_store).
  - reflexivity.
  - reflexivity.
Defined.

(** Without a [qs] in [this._options] the constructor throws a TypeError. *)
Lemma constructor_without_qs :
  DiscoveryV1.constructor copy_options_without_qs discovery_options ∅ = Throw TypeError.
Proof.
  apply (constructor_needs_options_and_qs copy_options_without_qs discovery_options ∅
           discovery (<[0 := plain_object discovery_options]> ∅)).
  - reflexivity.
  - discriminate.
  - right. reflexivity.
Defined.

